(** * Berghain puzzle: the Scenario-1 admission strategy and the game runner

    A shallow embedding of [src/berghain/api.py], [src/berghain/game_runner.py]
    and [src/berghain/strategies/scenario_1.py], with the [decide] methods of
    [strategies/always_accept.py] and [strategies/constraint_aware.py],
    followed by the properties of the admission procedure, the tolerance
    schedule, the no-attribute target, the runner's bookkeeping, its
    sessions and its summary.

    Python [float] arithmetic is written once, over an interface [PyFloat],
    and read twice: over the rationals [Q], in exact arithmetic, and over
    binary64 [float], bit for bit.  What depends on the order of the gates
    and on the effects alone is proved for every reading; what depends on
    the arithmetic is proved in the exact reading, and the concrete runs
    are evaluated in both. *)

From Stdlib Require Import ZArith QArith Qabs Lqa Floats Uint63 Ascii.
From stdpp Require Import base option list gmap strings fin_maps.

Set Default Proof Using "Type".
Local Open Scope Z_scope.

(* ===================================================================== *)
(** ** Python numbers *)
(* ===================================================================== *)

(** The operations the sources use on [float] values.  [of_int] is the
    implicit conversion of an [int] operand; [dec n d] is the decimal
    literal [n/d] (for instance [dec 95 100] for [0.95]). *)
Class PyFloat (F : Type) := {
  of_int : Z -> F;
  dec : Z -> positive -> F;
  add : F -> F -> F;
  sub : F -> F -> F;
  mul : F -> F -> F;
  div : F -> F -> F;
  absf : F -> F;
  ltb : F -> F -> bool;
  leb : F -> F -> bool
}.

Declare Scope py_scope.
Delimit Scope py_scope with py.
Infix "+" := add : py_scope.
Infix "-" := sub : py_scope.
Infix "*" := mul : py_scope.
Infix "/" := div : py_scope.
Notation "x <? y" := (ltb x y) : py_scope.
Notation "x <=? y" := (leb x y) : py_scope.
Notation "x >? y" := (ltb y x) : py_scope.
Notation "x >=? y" := (leb y x) : py_scope.

(** [min(a, b)] and [max(a, b)] of Python: the first argument is kept
    unless the second is strictly smaller (larger). *)
Definition py_min {F} `{PyFloat F} (a b : F) : F := if (b <? a)%py then b else a.
Definition py_max {F} `{PyFloat F} (a b : F) : F := if (b >? a)%py then b else a.

(** Exact reading. *)
Definition Qltb (x y : Q) : bool := (Qnum x * QDen y <? Qnum y * QDen x)%Z.

#[export] Instance Q_float : PyFloat Q := {|
  of_int := inject_Z;
  dec n d := Qmake n d;
  add := Qplus;
  sub := Qminus;
  mul := Qmult;
  div := Qdiv;
  absf := Qabs;
  ltb := Qltb;
  leb := Qle_bool
|}.

(** Binary64 reading. *)
Definition float_of_int (z : Z) : float :=
  match z with
  | Z0 => PrimFloat.zero
  | Zpos _ => PrimFloat.of_uint63 (Uint63.of_Z z)
  | Zneg p => PrimFloat.opp (PrimFloat.of_uint63 (Uint63.of_Z (Zpos p)))
  end.

#[export] Instance binary64_float : PyFloat float := {|
  of_int := float_of_int;
  dec n d := PrimFloat.div (float_of_int n) (float_of_int (Zpos d));
  add := PrimFloat.add;
  sub := PrimFloat.sub;
  mul := PrimFloat.mul;
  div := PrimFloat.div;
  absf := PrimFloat.abs;
  ltb := PrimFloat.ltb;
  leb := PrimFloat.leb
|}.

(* ===================================================================== *)
(** ** Python dictionaries *)
(* ===================================================================== *)

(** [d.get(k, default)]. *)
Definition dict_get {V} (d : gmap string V) (k : string) (default : V) : V :=
  match d !! k with Some v => v | None => default end.

(** The keys of a dictionary, as iterated by [for k in d].  Python
    iterates in insertion order, the map in the order of its keys; the
    sources depend on the order only in the sum of the correlation signal,
    which is printed and decides nothing. *)
Definition dict_keys {V} (d : gmap string V) : list string := (map_to_list d).*1.

(** [d.items()]. *)
Definition dict_items {V} (d : gmap string V) : list (string * V) := map_to_list d.

(** [k in d]. *)
Definition dict_mem {V} (d : gmap string V) (k : string) : bool := bool_decide (is_Some (d !! k)).

(** Truth value of a dictionary: [not d] holds for the empty one. *)
Definition dict_nonempty {V} (d : gmap string V) : bool := negb (bool_decide (d = ∅)).

(** Truth value of a list. *)
Definition list_nonempty {A} (l : list A) : bool :=
  match l with [] => false | _ :: _ => true end.

(** [len(l)] as a Python [int]. *)
Definition len {A} (l : list A) : Z := Z.of_nat (length l).

(* ===================================================================== *)
(** ** api.py: the data classes *)
(* ===================================================================== *)

Record Person := {
  person_index : Z;
  attributes : gmap string bool
}.

Record Constraint := {
  attribute : string;
  min_count : Z
}.

Record AttributeStatistics {F : Type} := {
  relative_frequencies : gmap string F;
  correlations : gmap string (gmap string F)
}.
Arguments AttributeStatistics F : clear implicits.

Record GameState {F : Type} := {
  game_id : string;
  status : string;
  admitted_count : Z;
  rejected_count : Z;
  next_person : option Person;
  constraints : list Constraint;
  attribute_statistics : AttributeStatistics F
}.
Arguments GameState F : clear implicits.

(** [current_stats] of the runner: a dictionary with exactly these four
    keys, all present from [reset] on, so the [.get(key, default)] reads of
    the strategy never fall back to their defaults. *)
Record Stats := {
  attribute_counts : gmap string Z;
  admitted_people : list (gmap string bool);
  rejected_people : list (gmap string bool);
  steps_taken : Z
}.

(* ===================================================================== *)
(** ** The process around the program: console, random source, clock, HTTP *)
(* ===================================================================== *)

Inductive Exn :=
| ValueError (msg : string)
| KeyError (key : string)
| AttributeError (name : string)
| HTTPError.

Inductive Result (A : Type) :=
| Ok (a : A)
| Raise (e : Exn).
Arguments Ok {A} a.
Arguments Raise {A} e.

(** What the sources print: one constructor per [print] call, or per run
    of consecutive [print] calls ([LoadedStatisticalData], [GameInfo]); the
    arguments are the values the messages format. *)
Inductive Printed {F : Type} :=
(* scenario_1.py *)
| NoAttrTarget (target_percentage : F)
| NoAttrOverRepresented (current target : F)
| ConstraintsStruggling
| AcceptingNoAttr (current target rate : F)
| RejectingNoAttr (current target rate : F)
| ProgressTolerance (progress tolerance : F)
| Frequencies (freqs : gmap string F)
| RejectingOverRepresented (attr : string) (current target tolerance : F)
| RejectingNeedMoreExpected (attr : string) (current_count required_count : Z)
                            (expected_yield : F) (remaining_spots : Z)
| RejectingNeedMore (attr : string) (current_count required_count : Z)
| CorrelatedAttributes (attr : string) (correlation_bonus : F)
| LoadedStatisticalData (freqs : gmap string F) (correlation_keys : list string)
| NoAttrTargets (stat_target basic_target : F)
| NoStatisticalData
(* game_runner.py *)
| StartingNewGame (scenario : Z)
| GameStartedSuccessfully
| NoActiveGame
| GameInfo (state : GameState F) (steps : Z) (counts : gmap string Z)
| NotStartedOrCompleted
| StepOf (step num_steps : Z)
| GameEndedAfter (step : Z)
| StepLine (number : Z) (decision : bool) (person : Person)
| GameCompleted (final_status : string).
Arguments Printed F : clear implicits.

(** A request sent to the game service, and what comes back. *)
Inductive Request :=
| GetNewGame (scenario : Z) (playerId : string)
| GetDecideAndNext (gameId : string) (personIndex : Z) (accept : option bool).

Inductive Reply {F : Type} :=
| Failure
| NewGameData (gameId : string) (constraints : list Constraint)
              (relativeFrequencies : gmap string F)
              (correlations : gmap string (gmap string F))
| NextData (status : string) (admittedCount rejectedCount : option Z)
           (nextPerson : option Person).
Arguments Reply F : clear implicits.

(** [entropy] is the sequence of values [random.random()] yields and
    [drawn] the number of them consumed so far; [clock] and [ticks] do the
    same for [time.time()]; [wire] holds the replies the service will give,
    and [sent] the requests made, latest first; [stdout] is latest first. *)
Record World {F : Type} := {
  entropy : nat -> F;
  drawn : nat;
  clock : nat -> F;
  ticks : nat;
  wire : list (Reply F);
  sent : list Request;
  stdout : list (Printed F)
}.
Arguments World F : clear implicits.

(** Computations that read and change a state and may raise. *)
Definition StExn (St A : Type) : Type := St -> Result A * St.

#[export] Instance StExn_ret {St} : MRet (StExn St) := fun A a s => (Ok a, s).
#[export] Instance StExn_bind {St} : MBind (StExn St) := fun A B k c s =>
  match c s with
  | (Ok a, s') => k a s'
  | (Raise e, s') => (Raise e, s')
  end.

Definition raise {St A} (e : Exn) : StExn St A := fun s => (Raise e, s).

(** The computations of the strategy act on the process alone. *)
Abbreviation M F := (StExn (World F)).

Definition when {St} (b : bool) (c : StExn St unit) : StExn St unit :=
  if b then c else mret tt.

Definition print {F} (p : Printed F) : M F unit := fun w =>
  (Ok tt, {| entropy := entropy w; drawn := drawn w; clock := clock w; ticks := ticks w;
             wire := wire w; sent := sent w; stdout := p :: stdout w |}).

(** [random.random()]. *)
Definition random_random {F} : M F F := fun w =>
  (Ok (entropy w (drawn w)),
   {| entropy := entropy w; drawn := S (drawn w); clock := clock w; ticks := ticks w;
      wire := wire w; sent := sent w; stdout := stdout w |}).

(** [time.time()]. *)
Definition time_time {F} : M F F := fun w =>
  (Ok (clock w (ticks w)),
   {| entropy := entropy w; drawn := drawn w; clock := clock w; ticks := S (ticks w);
      wire := wire w; sent := sent w; stdout := stdout w |}).

(** [session.get(url, params)] followed by [raise_for_status()] and
    [json()]: the request goes out and the next reply of the service comes
    back; a failed reply, or none at all, raises. *)
Definition http_get {F} (r : Request) : M F (Reply F) := fun w =>
  let out rest := {| entropy := entropy w; drawn := drawn w; clock := clock w;
                     ticks := ticks w; wire := rest; sent := r :: sent w;
                     stdout := stdout w |} in
  match wire w with
  | [] => (Raise HTTPError, out [])
  | Failure :: rest => (Raise HTTPError, out rest)
  | reply :: rest => (Ok reply, out rest)
  end.

(** [d[k]]. *)
Definition subscript {St V} (d : gmap string V) (k : string) : StExn St V :=
  match d !! k with
  | Some v => mret v
  | None => raise (KeyError k)
  end.

(** A [for] loop that threads an accumulator through a monadic body. *)
Fixpoint for_each {St A B} (l : list A) (acc : B) (body : B -> A -> StExn St B)
  : StExn St B :=
  match l with
  | [] => mret acc
  | x :: rest => acc' ← body acc x; for_each rest acc' body
  end.

(* ===================================================================== *)
(** ** strategies/scenario_1.py *)
(* ===================================================================== *)

Record Scenario1Strategy {F : Type} := {
  initial_tolerance : F;
  final_tolerance : F;
  strictness_start : F;
  _constraints : list Constraint;
  _relative_frequencies : gmap string F;
  _correlations : gmap string (gmap string F);
  _attribute_statistics : option (AttributeStatistics F)
}.
Arguments Scenario1Strategy F : clear implicits.

Section Scenario1.
Context {F : Type} `{PyFloat F}.
Local Open Scope py_scope.

(** [Scenario1Strategy(initial_tolerance, final_tolerance, strictness_start)]. *)
Definition __init__ (initial_tolerance final_tolerance strictness_start : F)
  : M F (Scenario1Strategy F) :=
  mret {| initial_tolerance := initial_tolerance;
          final_tolerance := final_tolerance;
          strictness_start := strictness_start;
          _constraints := [];
          _relative_frequencies := ∅;
          _correlations := ∅;
          _attribute_statistics := None |}.

(** The defaults of the three keyword arguments: 0.20, 0.02 and 0.1. *)
Definition __init__defaults : M F (Scenario1Strategy F) :=
  __init__ (dec 20 100) (dec 2 100) (dec 1 10).

(** [self._constraints = constraints]. *)
Definition set_constraints (self : Scenario1Strategy F) (cs : list Constraint)
  : Scenario1Strategy F :=
  {| initial_tolerance := initial_tolerance self;
     final_tolerance := final_tolerance self;
     strictness_start := strictness_start self;
     _constraints := cs;
     _relative_frequencies := _relative_frequencies self;
     _correlations := _correlations self;
     _attribute_statistics := _attribute_statistics self |}.

(** The three assignments of [on_game_start] from [attribute_statistics]. *)
Definition set_statistics (self : Scenario1Strategy F) (st : AttributeStatistics F)
  : Scenario1Strategy F :=
  {| initial_tolerance := initial_tolerance self;
     final_tolerance := final_tolerance self;
     strictness_start := strictness_start self;
     _constraints := _constraints self;
     _relative_frequencies := relative_frequencies st;
     _correlations := correlations st;
     _attribute_statistics := Some st |}.

Definition _calculate_current_tolerance (self : Scenario1Strategy F) (admitted_count : Z) : F :=
  let progress := of_int admitted_count / dec 1000 1 in
  if progress >=? dec 95 100 then of_int 0
  else if progress <=? strictness_start self then initial_tolerance self
  else
    let strictness_progress :=
      (progress - strictness_start self) / (dec 1 1 - strictness_start self) in
    let strictness_progress := py_min (dec 1 1) (py_max (dec 0 1) strictness_progress) in
    let current_tolerance :=
      initial_tolerance self
      - (initial_tolerance self - final_tolerance self) * strictness_progress in
    current_tolerance.

Definition _calculate_no_attributes_target_basic (self : Scenario1Strategy F) : F :=
  match map (fun c => of_int (min_count c) / dec 1000 1) (_constraints self) with
  | [] => dec 4 10
  | p :: ps =>
    (* max(...) and sum(...) over the constraints *)
    let max_constraint_percentage := fold_left py_max ps p in
    let total_constraint_percentage := fold_left add (p :: ps) (of_int 0) in
    let estimated_constraint_coverage :=
      py_max max_constraint_percentage (total_constraint_percentage * dec 6 10) in
    let no_attr_target := dec 1 1 - estimated_constraint_coverage in
    py_max (dec 1 10) (py_min (dec 7 10) no_attr_target)
  end.

Definition _calculate_no_attributes_target_with_statistics (self : Scenario1Strategy F) : F :=
  if negb (list_nonempty (_constraints self)) || negb (dict_nonempty (_relative_frequencies self))
  then _calculate_no_attributes_target_basic self
  else
    let constraint_attrs := map attribute (_constraints self) in
    match constraint_attrs with
    | [attr] =>
      let freq := dict_get (_relative_frequencies self) attr (dec 5 10) in
      dec 1 1 - freq
    | [attr1; attr2] =>
      let freq1 := dict_get (_relative_frequencies self) attr1 (dec 5 10) in
      let freq2 := dict_get (_relative_frequencies self) attr2 (dec 5 10) in
      let correlation := dict_get (dict_get (_correlations self) attr1 ∅) attr2 (dec 0 1) in
      let joint_prob := freq1 * freq2 * (of_int 1 + py_max (of_int 0) correlation) in
      let joint_prob := py_min joint_prob (py_min freq1 freq2) in
      let prob_either := freq1 + freq2 - joint_prob in
      let prob_neither := dec 1 1 - prob_either in
      py_max (dec 5 100) (py_min (dec 8 10) prob_neither)
    | _ =>
      let prob_none :=
        fold_left (fun prob_none constraint =>
                     let attr := attribute constraint in
                     let freq := dict_get (_relative_frequencies self) attr (dec 5 10) in
                     prob_none * (dec 1 1 - freq))
                  (_constraints self) (dec 1 1) in
      py_max (dec 5 100) (py_min (dec 8 10) prob_none)
    end.

(** [all(not person.get(attr, False) for attr in person)]. *)
Definition no_attributes (person : gmap string bool) : bool :=
  forallb (fun attr => negb (dict_get person attr false)) (dict_keys person).

Definition _decide_no_attributes_person (self : Scenario1Strategy F) (admitted_count : Z)
    (current_stats : Stats) (show_progress : bool) : M F bool :=
  let progress := of_int admitted_count / dec 1000 1 in
  let admitted_people := admitted_people current_stats in
  let current_no_attr_count := len (List.filter no_attributes admitted_people) in
  let current_no_attr_percentage :=
    if list_nonempty admitted_people
    then of_int current_no_attr_count / of_int (len admitted_people)
    else of_int 0 in
  let target_percentage := _calculate_no_attributes_target_with_statistics self in
  when (show_progress && (admitted_count mod 50 =? 0)%Z)
       (print (NoAttrTarget target_percentage));;
  if current_no_attr_percentage >? target_percentage + dec 2 100 then
    when show_progress
         (print (NoAttrOverRepresented current_no_attr_percentage target_percentage));;
    mret false
  else
    let base_rate :=
      if progress <=? dec 5 100 then dec 2 10
      else if progress <=? dec 15 100 then dec 15 100
      else if progress <=? dec 3 10 then dec 1 10
      else if progress <=? dec 5 10 then dec 5 100
      else if progress <=? dec 7 10 then dec 2 100
      else if progress <=? dec 9 10 then dec 1 100
      else dec 5 1000 in
    let acceptance_rate :=
      if current_no_attr_percentage <? target_percentage - dec 1 10
      then py_min (dec 3 10) (base_rate * dec 15 10)
      else if current_no_attr_percentage <? target_percentage - dec 3 100
      then py_min (dec 2 10) (base_rate * dec 12 10)
      else if current_no_attr_percentage <? target_percentage
      then base_rate
      else base_rate * dec 1 10 in
    acceptance_rate ←
      (if list_nonempty (_constraints self) && list_nonempty admitted_people then
         (* the loop that sets the flag and breaks at the first struggling constraint *)
         let any_constraint_struggling :=
           existsb (fun constraint =>
                      let attr := attribute constraint in
                      let current_count := dict_get (attribute_counts current_stats) attr 0%Z in
                      let required_count := min_count constraint in
                      let current_attr_percentage :=
                        of_int current_count / of_int (len admitted_people) in
                      let target_attr_percentage := of_int required_count / dec 1000 1 in
                      current_attr_percentage <? target_attr_percentage - dec 5 100)
                   (_constraints self) in
         if any_constraint_struggling then
           when show_progress (print ConstraintsStruggling);;
           mret (acceptance_rate * dec 5 10)
         else mret acceptance_rate
       else mret acceptance_rate);
    draw ← random_random;
    let decision := draw <? acceptance_rate in
    when show_progress
         (if decision
          then print (AcceptingNoAttr current_no_attr_percentage target_percentage acceptance_rate)
          else print (RejectingNoAttr current_no_attr_percentage target_percentage acceptance_rate));;
    mret decision.

Definition _calculate_expected_attribute_yield (self : Scenario1Strategy F) (attr : string)
    (remaining_people : Z) : F :=
  if negb (dict_nonempty (_relative_frequencies self))
  then of_int remaining_people * dec 5 10
  else
    let frequency := dict_get (_relative_frequencies self) attr (dec 5 10) in
    of_int remaining_people * frequency.

(** [for other_attr in person_attrs: ...] of the correlation block: the
    correlations above 0.1 between [attr] and the other attributes are
    added to [correlation_bonus]. *)
Definition add_correlations (self : Scenario1Strategy F) (attr : string)
    (person_attrs : list string) (correlation_bonus : F) : M F F :=
  for_each person_attrs correlation_bonus (fun correlation_bonus other_attr =>
    if negb (String.eqb other_attr attr)
       && dict_mem (dict_get (_correlations self) attr ∅) other_attr
    then
      row ← subscript (_correlations self) attr;
      corr ← subscript row other_attr;
      if corr >? dec 1 10 then mret (correlation_bonus + corr)
      else mret correlation_bonus
    else mret correlation_bonus).

(** The correlation block at the end of the loop body of [decide]: it
    prints when the correlations of [attr] with the other attributes the
    person has add up to more than 0.2. *)
Definition correlation_signal (self : Scenario1Strategy F) (person : Person) (attr : string)
    (person_has_attr show_progress : bool) : M F unit :=
  if person_has_attr && dict_nonempty (_correlations self) then
    let person_attrs :=
      map fst (List.filter (fun av => snd av) (dict_items (attributes person))) in
    if (len person_attrs >? 1)%Z then
      correlation_bonus ← add_correlations self attr person_attrs (of_int 0);
      when ((correlation_bonus >? dec 2 10) && show_progress)
           (print (CorrelatedAttributes attr correlation_bonus))
    else mret tt
  else mret tt.

(** One pass through the body of [for constraint in constraints]; the
    result is [true] when the body executes [return False]. *)
Definition check_constraint (self : Scenario1Strategy F) (person : Person)
    (current_stats : Stats) (show_progress : bool)
    (total_admitted remaining_spots : Z) (current_tolerance : F)
    (constraint : Constraint) : M F bool :=
  let attr := attribute constraint in
  let required_count := min_count constraint in
  let target_percentage := of_int required_count / dec 1000 1 in
  let current_count := dict_get (attribute_counts current_stats) attr 0%Z in
  let current_percentage :=
    if (total_admitted >? 0)%Z then of_int current_count / of_int total_admitted
    else of_int 0 in
  let person_has_attr := dict_get (attributes person) attr false in
  if person_has_attr && (current_percentage >? target_percentage + current_tolerance) then
    when show_progress
         (print (RejectingOverRepresented attr current_percentage target_percentage
                                          current_tolerance));;
    mret true
  else
    rejected ←
      (if negb person_has_attr && (current_percentage <? target_percentage - dec 8 100) then
         let still_needed := (required_count - current_count)%Z in
         if dict_nonempty (_relative_frequencies self)
            && dict_mem (_relative_frequencies self) attr
         then
           let expected_yield :=
             _calculate_expected_attribute_yield self attr remaining_spots in
           if expected_yield <? of_int still_needed * dec 12 10 then
             when show_progress
                  (print (RejectingNeedMoreExpected attr current_count required_count
                                                    expected_yield remaining_spots));;
             mret true
           else mret false
         else
           if of_int still_needed >? of_int remaining_spots * dec 7 10 then
             when show_progress
                  (print (RejectingNeedMore attr current_count required_count));;
             mret true
           else mret false
       else mret false);
    if (rejected : bool) then mret true
    else
      correlation_signal self person attr person_has_attr show_progress;;
      mret false.

(** [for constraint in constraints: ...] followed by [return True]. *)
Fixpoint check_constraints (self : Scenario1Strategy F) (person : Person)
    (current_stats : Stats) (show_progress : bool)
    (total_admitted remaining_spots : Z) (current_tolerance : F)
    (constraints : list Constraint) : M F bool :=
  match constraints with
  | [] => mret true
  | constraint :: rest =>
    rejected ← check_constraint self person current_stats show_progress
                                total_admitted remaining_spots current_tolerance constraint;
    if (rejected : bool) then mret false
    else check_constraints self person current_stats show_progress
                           total_admitted remaining_spots current_tolerance rest
  end.

(** [decide] from the line [total_admitted = len(admitted_count)] on, once
    [constraints] is bound. *)
Definition decide_with_constraints (self : Scenario1Strategy F) (person : Person)
    (current_stats : Stats) (show_progress : bool) (constraints : list Constraint)
  : M F bool :=
  let total_admitted := len (admitted_people current_stats) in
  let remaining_spots := (1000 - total_admitted)%Z in
  let current_tolerance := _calculate_current_tolerance self total_admitted in
  let progress := of_int total_admitted / dec 1000 1 in
  let milestone_points :=
    [dec 1 10; dec 2 10; dec 3 10; dec 5 10; dec 7 10; dec 8 10; dec 9 10] in
  when (existsb (fun mp => absf (progress - mp) <? dec 5 1000) milestone_points
        && show_progress)
       (print (ProgressTolerance progress current_tolerance);;
        when (dict_nonempty (_relative_frequencies self))
             (print (Frequencies (_relative_frequencies self))));;
  check_constraints self person current_stats show_progress
                    total_admitted remaining_spots current_tolerance constraints.

(** [decide] returns its boolean together with the strategy object, whose
    [_constraints] it may assign. *)
Definition decide (self : Scenario1Strategy F) (person : Person) (game_state : GameState F)
    (current_stats : Stats) (show_progress : bool) : M F (bool * Scenario1Strategy F) :=
  if (admitted_count game_state >=? 1000)%Z then mret (false, self)
  else if no_attributes (attributes person) then
    decision ← _decide_no_attributes_person self (admitted_count game_state)
                                            current_stats show_progress;
    mret (decision, self)
  else
    let admitted := admitted_people current_stats in
    if (len admitted =? 0)%Z then mret (true, self)
    else
      if negb (list_nonempty (_constraints self)) then
        let constraints := constraints game_state in
        if list_nonempty constraints then
          let self := set_constraints self constraints in
          decision ← decide_with_constraints self person current_stats show_progress
                                             constraints;
          mret (decision, self)
        else mret (true, self)
      else
        let constraints := _constraints self in
        decision ← decide_with_constraints self person current_stats show_progress
                                           constraints;
        mret (decision, self).

Definition on_game_start (self : Scenario1Strategy F) (game_state : GameState F)
  : M F (Scenario1Strategy F) :=
  let self := set_constraints self (constraints game_state) in
  (* a dataclass instance is always true, so the [else] branch, which
     prints that no statistics are available, is never taken *)
  let attribute_statistics := attribute_statistics game_state in
  let self := set_statistics self attribute_statistics in
  print (LoadedStatisticalData (_relative_frequencies self)
                               (dict_keys (_correlations self)));;
  when (list_nonempty (_constraints self))
       (let stat_target := _calculate_no_attributes_target_with_statistics self in
        let basic_target := _calculate_no_attributes_target_basic self in
        print (NoAttrTargets stat_target basic_target));;
  mret self.

End Scenario1.

(* ===================================================================== *)
(** ** strategies/base.py and api.py: the interfaces the runner uses *)
(* ===================================================================== *)

(** [DecisionStrategy], over the type [S] of the strategy object.  Each
    method returns the object as the call leaves it. *)
Class DecisionStrategy (F S : Type) := {
  strategy_decide : S -> Person -> GameState F -> Stats -> bool -> M F (bool * S);
  strategy_on_game_start : S -> GameState F -> M F S;
  strategy_on_decision_made : S -> Person -> bool -> GameState F -> M F S
}.

(** [Scenario1Strategy] overrides [decide] and [on_game_start] and
    inherits [on_decision_made], whose body is [pass]. *)
#[export] Instance Scenario1_strategy {F} `{PyFloat F}
  : DecisionStrategy F (Scenario1Strategy F) := {|
  strategy_decide := decide;
  strategy_on_game_start := on_game_start;
  strategy_on_decision_made := fun self _ _ _ => mret self
|}.

(* ===================================================================== *)
(** ** strategies/always_accept.py and strategies/constraint_aware.py *)
(* ===================================================================== *)

Module AlwaysAccept.

(** [AlwaysAcceptStrategy.decide]. *)
Definition decide {F} (person : Person) (game_state : GameState F) (current_stats : Stats)
  : bool :=
  admitted_count game_state <? 1000.

End AlwaysAccept.

(** [ConstraintAwareStrategy], in the exact reading. *)
Module ConstraintAware.

Record ConstraintAwareStrategy := {
  safety_margin : Q
}.

(** [int(x)]: the integer part, toward zero. *)
Definition py_int (x : Q) : Z := Z.quot (Qnum x) (Zpos (Qden x)).

(** [for constraint in game_state.constraints: ...] followed by
    [return True]. *)
Fixpoint check_constraints (self : ConstraintAwareStrategy) (person : Person)
    (current_stats : Stats) (remaining_spots : Z) (constraints : list Constraint) : bool :=
  match constraints with
  | [] => true
  | constraint :: rest =>
    let attr := attribute constraint in
    let min_needed := min_count constraint in
    let target_count := py_int (of_int min_needed * (of_int 1 + safety_margin self))%py in
    let current_count := dict_get (attribute_counts current_stats) attr 0 in
    let still_needed := target_count - current_count in
    if dict_get (attributes person) attr false && (still_needed >? 0) then true
    else if (of_int still_needed >? (of_int remaining_spots * dec 8 10 : Q))%py
            && negb (dict_get (attributes person) attr false)
    then false
    else check_constraints self person current_stats remaining_spots rest
  end.

Definition decide {F} (self : ConstraintAwareStrategy) (person : Person)
    (game_state : GameState F) (current_stats : Stats) : bool :=
  if admitted_count game_state >=? 1000 then false
  else if negb (list_nonempty (constraints game_state)) then true
  else
    let remaining_spots := 1000 - admitted_count game_state in
    check_constraints self person current_stats remaining_spots (constraints game_state).

End ConstraintAware.

(* ===================================================================== *)
(** ** api.py: the client *)
(* ===================================================================== *)

Record BerghainAPI := {
  base_url : string;
  player_id : string
}.

(** [s.rstrip('/')]. *)
Fixpoint rstrip_slash (s : string) : string :=
  match s with
  | EmptyString => EmptyString
  | String c rest =>
    match rstrip_slash rest with
    | EmptyString => if Ascii.eqb c "/"%char then EmptyString else String c EmptyString
    | String _ _ as kept => String c kept
    end
  end.

(** [BerghainAPI(base_url, player_id)]; [getenv] is [os.getenv], and the
    [requests.Session()] the constructor creates is the connection of the
    process. *)
Definition BerghainAPI__init__ (getenv : string -> option string) (base_url : string)
    (player_id : option string) : Result BerghainAPI :=
  let base_url := rstrip_slash base_url in
  (* player_id or os.getenv('PLAYER_ID') *)
  let player_id :=
    match player_id with
    | Some (String _ _ as given) => Some given
    | _ => getenv "PLAYER_ID"
    end in
  match player_id with
  | Some (String _ _ as given) => Ok {| base_url := base_url; player_id := given |}
  | _ =>
    Raise (ValueError
             "Player ID must be provided or set in PLAYER_ID environment variable")
  end.

Section Api.
Context {F : Type}.

Definition new_game (self : BerghainAPI) (scenario : Z) : M F (GameState F) :=
  if negb (bool_decide (scenario ∈ [1; 2; 3])) then
    raise (ValueError "Scenario must be 1, 2, or 3")
  else
    data ← http_get (GetNewGame scenario (player_id self));
    match data with
    | NewGameData gameId constraints relativeFrequencies correlations =>
      let attr_stats := {| relative_frequencies := relativeFrequencies;
                           correlations := correlations |} in
      mret {| game_id := gameId;
              status := "running";
              admitted_count := 0;
              rejected_count := 0;
              next_person := None;
              constraints := constraints;
              attribute_statistics := attr_stats |}
    | _ => raise (KeyError "constraints")
    end.

Definition decide_and_next (self : BerghainAPI) (game_id : string) (person_index : Z)
    (accept : option bool) : M F (GameState F) :=
  data ← http_get (GetDecideAndNext game_id person_index accept);
  match data with
  | NextData status admittedCount rejectedCount nextPerson =>
    mret {| game_id := game_id;
            status := status;
            admitted_count := default 0 admittedCount;
            rejected_count := default 0 rejectedCount;
            next_person := nextPerson;
            constraints := [];
            attribute_statistics := {| relative_frequencies := ∅; correlations := ∅ |} |}
  | _ => raise (KeyError "status")
  end.

End Api.

(* ===================================================================== *)
(** ** game_runner.py *)
(* ===================================================================== *)

Record PersonRecord {F : Type} := {
  rec_person_index : Z;
  rec_attributes : gmap string bool;
  decision : bool;
  timestamp : F;
  admitted_count_before : Z;
  rejected_count_before : Z;
  admitted_count_after : Z;
  rejected_count_after : Z
}.
Arguments PersonRecord F : clear implicits.

Record GameRunner {F S : Type} := {
  api : BerghainAPI;
  strategy : S;
  game_state : option (GameState F);
  initial_game_info : option (GameState F);
  people_history : list (PersonRecord F);
  current_stats : Stats;
  game_started : bool;
  game_completed : bool
}.
Arguments GameRunner F S : clear implicits.

(** An entry of the list under ['constraints'] in the summary of a game. *)
Record ConstraintReport := {
  report_attribute : string;
  required : Z;
  actual : Z;
  satisfied : bool
}.

(** The dictionary [get_game_summary] returns. *)
Record GameSummary {F : Type} := {
  summary_strategy : string;
  summary_game_id : string;
  summary_status : string;
  summary_steps_taken : Z;
  summary_admitted_count : Z;
  summary_rejected_count : Z;
  summary_total_seen : Z;
  summary_success : bool;
  summary_constraints : list ConstraintReport;
  summary_current_stats : Stats;
  summary_people_history : list (PersonRecord F)
}.
Arguments GameSummary F : clear implicits.

(** The methods of the runner act on the runner object and the process. *)
Abbreviation RM F S := (StExn (GameRunner F S * World F)).

Section Runner.
Context {F S : Type} `{DecisionStrategy F S}.

(** A computation of the process, run from a method of the runner. *)
Definition io {A} (c : M F A) : RM F S A := fun '(self, w) =>
  let '(r, w') := c w in (r, (self, w')).

(** Reading [self], and assigning to its attributes. *)
Definition get_self : RM F S (GameRunner F S) := fun '(self, w) => (Ok self, (self, w)).
Definition set_self (f : GameRunner F S -> GameRunner F S) : RM F S unit :=
  fun '(self, w) => (Ok tt, (f self, w)).

Definition with_strategy (s : S) (self : GameRunner F S) : GameRunner F S :=
  {| api := api self; strategy := s; game_state := game_state self;
     initial_game_info := initial_game_info self; people_history := people_history self;
     current_stats := current_stats self; game_started := game_started self;
     game_completed := game_completed self |}.
Definition with_game_state (g : GameState F) (self : GameRunner F S) : GameRunner F S :=
  {| api := api self; strategy := strategy self; game_state := Some g;
     initial_game_info := initial_game_info self; people_history := people_history self;
     current_stats := current_stats self; game_started := game_started self;
     game_completed := game_completed self |}.
Definition with_initial_game_info (g : GameState F) (self : GameRunner F S) : GameRunner F S :=
  {| api := api self; strategy := strategy self; game_state := game_state self;
     initial_game_info := Some g; people_history := people_history self;
     current_stats := current_stats self; game_started := game_started self;
     game_completed := game_completed self |}.
Definition with_people_history (h : list (PersonRecord F)) (self : GameRunner F S)
  : GameRunner F S :=
  {| api := api self; strategy := strategy self; game_state := game_state self;
     initial_game_info := initial_game_info self; people_history := h;
     current_stats := current_stats self; game_started := game_started self;
     game_completed := game_completed self |}.
Definition with_current_stats (st : Stats) (self : GameRunner F S) : GameRunner F S :=
  {| api := api self; strategy := strategy self; game_state := game_state self;
     initial_game_info := initial_game_info self; people_history := people_history self;
     current_stats := st; game_started := game_started self;
     game_completed := game_completed self |}.
Definition with_game_started (b : bool) (self : GameRunner F S) : GameRunner F S :=
  {| api := api self; strategy := strategy self; game_state := game_state self;
     initial_game_info := initial_game_info self; people_history := people_history self;
     current_stats := current_stats self; game_started := b;
     game_completed := game_completed self |}.
Definition with_game_completed (b : bool) (self : GameRunner F S) : GameRunner F S :=
  {| api := api self; strategy := strategy self; game_state := game_state self;
     initial_game_info := initial_game_info self; people_history := people_history self;
     current_stats := current_stats self; game_started := game_started self;
     game_completed := b |}.

(** Assignments to the entries of [self.current_stats]. *)
Definition with_attribute_counts (c : gmap string Z) (st : Stats) : Stats :=
  {| attribute_counts := c; admitted_people := admitted_people st;
     rejected_people := rejected_people st; steps_taken := steps_taken st |}.
Definition with_admitted_people (l : list (gmap string bool)) (st : Stats) : Stats :=
  {| attribute_counts := attribute_counts st; admitted_people := l;
     rejected_people := rejected_people st; steps_taken := steps_taken st |}.
Definition with_rejected_people (l : list (gmap string bool)) (st : Stats) : Stats :=
  {| attribute_counts := attribute_counts st; admitted_people := admitted_people st;
     rejected_people := l; steps_taken := steps_taken st |}.
Definition with_steps_taken (n : Z) (st : Stats) : Stats :=
  {| attribute_counts := attribute_counts st; admitted_people := admitted_people st;
     rejected_people := rejected_people st; steps_taken := n |}.

(** [GameRunner(api_client, strategy)]: the two assignments and [reset()]. *)
Definition fresh_stats : Stats :=
  {| attribute_counts := ∅; admitted_people := []; rejected_people := []; steps_taken := 0 |}.

Definition GameRunner__init__ (api_client : BerghainAPI) (strategy : S) : GameRunner F S :=
  {| api := api_client; strategy := strategy; game_state := None;
     initial_game_info := None; people_history := []; current_stats := fresh_stats;
     game_started := false; game_completed := false |}.

Definition reset : RM F S unit :=
  set_self (fun self => GameRunner__init__ (api self) (strategy self)).

Definition display_game_info : RM F S unit :=
  self ← get_self;
  match game_state self with
  | None => io (print NoActiveGame)
  | Some gs =>
    io (print (GameInfo gs (steps_taken (current_stats self))
                        (attribute_counts (current_stats self))))
  end.

Definition start_game (scenario : Z) : RM F S (GameState F) :=
  io (print (StartingNewGame scenario));;
  reset;;
  self ← get_self;
  info ← io (new_game (api self) scenario);
  set_self (with_initial_game_info info);;
  set_self (with_game_state info);;
  (* for constraint in constraints: attribute_counts[constraint.attribute] = 0 *)
  set_self (fun self =>
    with_current_stats
      (with_attribute_counts
         (fold_left (fun counts constraint => <[attribute constraint := 0]> counts)
                    (constraints info) (attribute_counts (current_stats self)))
         (current_stats self))
      self);;
  self ← get_self;
  strategy' ← io (strategy_on_game_start (strategy self) info);
  set_self (with_strategy strategy');;
  first ← io (decide_and_next (api self) (game_id info) 0 None);
  set_self (with_game_state first);;
  set_self (with_game_started true);;
  io (print GameStartedSuccessfully);;
  display_game_info;;
  mret first.

(** The body of [for attr, value in person.attributes.items()]: a true
    attribute that the tracker counts is counted once more. *)
Definition count_attribute (counts : gmap string Z) (item : string * bool)
  : RM F S (gmap string Z) :=
  let '(attr, value) := item in
  if value && dict_mem counts attr then
    n ← subscript counts attr;
    mret (<[attr := n + 1]> counts)
  else mret counts.

(** The block of [step] under the comment [Update statistics]. *)
Definition update_statistics (person : Person) (decision : bool) : RM F S unit :=
  if decision then
    set_self (fun self =>
      with_current_stats
        (with_admitted_people
           (admitted_people (current_stats self) ++ [attributes person])
           (current_stats self))
        self);;
    self ← get_self;
    counts ← for_each (dict_items (attributes person))
                      (attribute_counts (current_stats self))
                      count_attribute;
    set_self (fun self =>
      with_current_stats (with_attribute_counts counts (current_stats self)) self)
  else
    set_self (fun self =>
      with_current_stats
        (with_rejected_people
           (rejected_people (current_stats self) ++ [attributes person])
           (current_stats self))
        self).

(** What one pass through the body of the loop of [step] says about the
    loop: go on, or [break]. *)
Inductive Flow := Continue | Break.

(** The body of [for step in range(num_steps)]; [step_records] is the list
    the method returns, threaded through the loop. *)
Definition step_body (num_steps : Z) (show_progress : bool) (step : Z)
    (step_records : list (PersonRecord F)) : RM F S (Flow * list (PersonRecord F)) :=
  when (negb show_progress) (io (print (StepOf (step + 1) num_steps)));;
  self ← get_self;
  match game_state self with
  | None => raise (AttributeError "next_person")
  | Some gs =>
    match next_person gs with
    | Some person =>
      if negb (String.eqb (status gs) "running") then
        io (print (GameEndedAfter step));;
        set_self (with_game_completed true);;
        mret (Break, step_records)
      else
        (* Make decision *)
        '(decision, strategy') ← io (strategy_decide (strategy self) person gs
                                                     (current_stats self) show_progress);
        set_self (with_strategy strategy');;
        (* Record state before decision *)
        let admitted_before := admitted_count gs in
        let rejected_before := rejected_count gs in
        now ← io time_time;
        let record :=
          {| rec_person_index := person_index person;
             rec_attributes := attributes person;
             decision := decision;
             timestamp := now;
             admitted_count_before := admitted_before;
             rejected_count_before := rejected_before;
             admitted_count_after := admitted_before + (if decision then 1 else 0);
             rejected_count_after := rejected_before + (if decision then 0 else 1) |} in
        let step_records := step_records ++ [record] in
        set_self (fun self => with_people_history (people_history self ++ [record]) self);;
        (* Update statistics *)
        update_statistics person decision;;
        (* Show progress *)
        self ← get_self;
        when show_progress
             (io (print (StepLine (steps_taken (current_stats self) + 1) decision person)));;
        (* Send decision and get next person *)
        gs' ← io (decide_and_next (api self) (game_id gs) (person_index person)
                                  (Some decision));
        set_self (with_game_state gs');;
        (* Let strategy know about the decision *)
        self ← get_self;
        strategy' ← io (strategy_on_decision_made (strategy self) person decision gs');
        set_self (with_strategy strategy');;
        set_self (fun self =>
          with_current_stats
            (with_steps_taken (steps_taken (current_stats self) + 1) (current_stats self))
            self);;
        (* Check if game is complete *)
        if negb (String.eqb (status gs') "running") then
          io (print (GameCompleted (status gs')));;
          set_self (with_game_completed true);;
          mret (Break, step_records)
        else mret (Continue, step_records)
    | None =>
      io (print (GameEndedAfter step));;
      set_self (with_game_completed true);;
      mret (Break, step_records)
    end
  end.

(** [for step in range(num_steps)], with [todo] passes left to make. *)
Fixpoint step_loop (num_steps : Z) (show_progress : bool) (todo : nat) (step : Z)
    (step_records : list (PersonRecord F)) : RM F S (list (PersonRecord F)) :=
  match todo with
  | O => mret step_records
  | Datatypes.S todo' =>
    '(flow, step_records) ← step_body num_steps show_progress step step_records;
    match flow with
    | Break => mret step_records
    | Continue => step_loop num_steps show_progress todo' (step + 1) step_records
    end
  end.

Definition step (num_steps : Z) (show_progress : bool) : RM F S (list (PersonRecord F)) :=
  self ← get_self;
  if negb (game_started self) || game_completed self then
    io (print NotStartedOrCompleted);;
    mret []
  else
    step_loop num_steps show_progress (Z.to_nat num_steps) 0 [].

(** [get_people_seen], [get_admitted_people] and [get_rejected_people]
    read the history and leave the runner as it is. *)
Definition get_people_seen (self : GameRunner F S) : list (PersonRecord F) :=
  people_history self.

Definition get_admitted_people (self : GameRunner F S) : list (PersonRecord F) :=
  List.filter (fun record => decision record) (people_history self).

Definition get_rejected_people (self : GameRunner F S) : list (PersonRecord F) :=
  List.filter (fun record => negb (decision record)) (people_history self).

(** [get_game_summary]: the dictionary it returns, entry by entry; [None]
    is the empty dictionary [{}] of a runner without game state, and
    [get_name] the method of the strategy.  The entries [current_stats] and
    [people_history] are the objects of the runner themselves, not copies:
    the summary is read here before the runner goes on. *)
Definition get_game_summary (get_name : S -> string) (self : GameRunner F S)
  : option (GameSummary F) :=
  match game_state self with
  | None => None
  | Some gs =>
    let admitted := get_admitted_people self in
    let rejected := get_rejected_people self in
    Some {| summary_strategy := get_name (strategy self);
            summary_game_id := game_id gs;
            summary_status := status gs;
            summary_steps_taken := steps_taken (current_stats self);
            summary_admitted_count := len admitted;
            summary_rejected_count := len rejected;
            summary_total_seen := len (people_history self);
            summary_success :=
              String.eqb (status gs) "completed" && (len admitted =? 1000);
            summary_constraints :=
              map (fun c =>
                     {| report_attribute := attribute c;
                        required := min_count c;
                        actual :=
                          dict_get (attribute_counts (current_stats self)) (attribute c) 0;
                        satisfied :=
                          dict_get (attribute_counts (current_stats self)) (attribute c) 0
                          >=? min_count c |})
                  (match initial_game_info self with
                   | Some info => constraints info
                   | None => []
                   end);
            summary_current_stats := current_stats self;
            summary_people_history := people_history self |}
  end.



End Runner.

(* ===================================================================== *)
(** ** Notions used in the statements *)
(* ===================================================================== *)

(** The boolean of a result of [decide]. *)
Definition decision_of {S : Type} (r : Result (bool * S)) : Result bool :=
  match r with
  | Ok (b, _) => Ok b
  | Raise e => Raise e
  end.

(** The same strategy object with another correlations mapping. *)
Definition with_correlations {F} (self : Scenario1Strategy F)
    (corr : gmap string (gmap string F)) : Scenario1Strategy F :=
  {| initial_tolerance := initial_tolerance self;
     final_tolerance := final_tolerance self;
     strictness_start := strictness_start self;
     _constraints := _constraints self;
     _relative_frequencies := _relative_frequencies self;
     _correlations := corr;
     _attribute_statistics := _attribute_statistics self |}.


(** The process after printing [out]. *)
Definition emit {F} (out : list (Printed F)) (w : World F) : World F :=
  {| entropy := entropy w; drawn := drawn w; clock := clock w; ticks := ticks w;
     wire := wire w; sent := sent w; stdout := out ++ stdout w |}.

(** [c1] and [c2] return the same value, in every process, and do nothing
    to the process but print. *)
Definition agree {F A} (c1 c2 : M F A) : Prop :=
  exists a out1 out2,
    (forall w, c1 w = (Ok a, emit out1 w)) /\ (forall w, c2 w = (Ok a, emit out2 w)).

(** [c] returns [a] in every process and does nothing to the process but
    print, and not even that when [show_progress] is false. *)
Definition writes {F A} (show_progress : bool) (c : M F A) (a : A) : Prop :=
  exists out,
    (show_progress = false -> out = []) /\ forall w, c w = (Ok a, emit out w).

(** The constraints the loop of [decide] runs over: those the strategy
    holds, or those of the game state when it holds none. *)
Definition quotas_in_force {F} (self : Scenario1Strategy F) (game_state : GameState F)
  : list Constraint :=
  if list_nonempty (_constraints self) then _constraints self
  else constraints game_state.

(** Whether one pass through the loop body of [decide] ends in
    [return False]: the two tests of the body, without what it prints. *)
Definition quota_rejects {F} `{PyFloat F} (self : Scenario1Strategy F) (person : Person)
    (current_stats : Stats) (total_admitted remaining_spots : Z) (current_tolerance : F)
    (constraint : Constraint) : bool :=
  (let attr := attribute constraint in
   let required_count := min_count constraint in
   let target_percentage := of_int required_count / dec 1000 1 in
   let current_count := dict_get (attribute_counts current_stats) attr 0%Z in
   let current_percentage :=
     if (total_admitted >? 0)%Z then of_int current_count / of_int total_admitted
     else of_int 0 in
   let person_has_attr := dict_get (attributes person) attr false in
   let still_needed := (required_count - current_count)%Z in
   (person_has_attr && (current_percentage >? target_percentage + current_tolerance))
   || (negb person_has_attr && (current_percentage <? target_percentage - dec 8 100)
       && (if dict_nonempty (_relative_frequencies self)
              && dict_mem (_relative_frequencies self) attr
           then _calculate_expected_attribute_yield self attr remaining_spots
                <? of_int still_needed * dec 12 10
           else of_int still_needed >? of_int remaining_spots * dec 7 10)))%py.

(** What [decide] returns for a person with an attribute, read off the
    gates and the loop: the venue is full, nobody was admitted yet, or
    no quota in force rejects. *)
Definition attributed_decision {F} `{PyFloat F} (self : Scenario1Strategy F)
    (person : Person) (game_state : GameState F) (current_stats : Stats) : bool :=
  let total_admitted := len (admitted_people current_stats) in
  if (admitted_count game_state >=? 1000)%Z then false
  else if (total_admitted =? 0)%Z then true
  else forallb (fun constraint =>
                  negb (quota_rejects self person current_stats total_admitted
                          (1000 - total_admitted)
                          (_calculate_current_tolerance self total_admitted) constraint))
               (quotas_in_force self game_state).





(** [c] leaves a runner object that satisfies [Inv] in such a state,
    whether it returns or raises. *)
Definition preserves {F S A} (Inv : GameRunner F S -> Prop) (c : RM F S A) : Prop :=
  forall self w, Inv self -> Inv (fst (snd (c (self, w)))).

(** The share of people without attributes among the admitted people, as
    [_decide_no_attributes_person] computes it
    ([current_no_attr_percentage]). *)
Definition no_attribute_share {F} `{PyFloat F} (current_stats : Stats) : F :=
  let admitted_people := admitted_people current_stats in
  let current_no_attr_count := len (List.filter no_attributes admitted_people) in
  if list_nonempty admitted_people
  then (of_int current_no_attr_count / of_int (len admitted_people))%py
  else of_int 0.

(** The rate against which [_decide_no_attributes_person] compares its
    draw: the value of [acceptance_rate] at the line
    [decision = random.random() < acceptance_rate]. *)
Definition acceptance_rate_of {F} `{PyFloat F} (self : Scenario1Strategy F)
    (admitted_count : Z) (current_stats : Stats) : F :=
  (let progress := of_int admitted_count / dec 1000 1 in
   let admitted_people := admitted_people current_stats in
   let current_no_attr_percentage := no_attribute_share current_stats in
   let target_percentage := _calculate_no_attributes_target_with_statistics self in
   let base_rate :=
     if progress <=? dec 5 100 then dec 2 10
     else if progress <=? dec 15 100 then dec 15 100
     else if progress <=? dec 3 10 then dec 1 10
     else if progress <=? dec 5 10 then dec 5 100
     else if progress <=? dec 7 10 then dec 2 100
     else if progress <=? dec 9 10 then dec 1 100
     else dec 5 1000 in
   let acceptance_rate :=
     if current_no_attr_percentage <? target_percentage - dec 1 10
     then py_min (dec 3 10) (base_rate * dec 15 10)
     else if current_no_attr_percentage <? target_percentage - dec 3 100
     then py_min (dec 2 10) (base_rate * dec 12 10)
     else if current_no_attr_percentage <? target_percentage
     then base_rate
     else base_rate * dec 1 10 in
   if list_nonempty (_constraints self) && list_nonempty admitted_people
      && existsb (fun constraint =>
                    let attr := attribute constraint in
                    let current_count :=
                      dict_get (attribute_counts current_stats) attr 0%Z in
                    let required_count := min_count constraint in
                    let current_attr_percentage :=
                      of_int current_count / of_int (len admitted_people) in
                    let target_attr_percentage := of_int required_count / dec 1000 1 in
                    current_attr_percentage <? target_attr_percentage - dec 5 100)
                 (_constraints self)
   then acceptance_rate * dec 5 10
   else acceptance_rate)%py.

(** The tracker never counts an attribute more often than it counts
    admissions. *)
Definition counts_bounded (st : Stats) : Prop :=
  forall attr n, attribute_counts st !! attr = Some n -> n <= len (admitted_people st).

(** Each tracked count is the number of admitted people who have the
    attribute. *)
Definition counts_exact (st : Stats) : Prop :=
  forall attr n,
    attribute_counts st !! attr = Some n ->
    n = len (List.filter (fun attributes => dict_get attributes attr false)
                         (admitted_people st)).

(** The record [step] creates for [person], decided at time [now] in the
    game state [gs]. *)
Definition record_of {F} (person : Person) (gs : GameState F) (decision : bool) (now : F)
  : PersonRecord F :=
  {| rec_person_index := person_index person;
     rec_attributes := attributes person;
     decision := decision;
     timestamp := now;
     admitted_count_before := admitted_count gs;
     rejected_count_before := rejected_count gs;
     admitted_count_after := admitted_count gs + (if decision then 1 else 0);
     rejected_count_after := rejected_count gs + (if decision then 0 else 1) |}.

(** The request by which [step] sends the decision of a record, in the
    game [gameId]. *)
Definition push_of {F} (gameId : string) (record : PersonRecord F) : Request :=
  GetDecideAndNext gameId (rec_person_index record) (Some (decision record)).

(** What [Update statistics] makes of the tracker [st] for [person]. *)
Definition recorded (person : Person) (decision : bool) (st st' : Stats) : Prop :=
  steps_taken st' = steps_taken st
  /\ if decision then
       admitted_people st' = admitted_people st ++ [attributes person]
       /\ rejected_people st' = rejected_people st
       /\ forall attr,
            attribute_counts st' !! attr
            = (fun n => if dict_get (attributes person) attr false then n + 1 else n)
                <$> attribute_counts st !! attr
     else
       admitted_people st' = admitted_people st
       /\ rejected_people st' = rejected_people st ++ [attributes person]
       /\ attribute_counts st' = attribute_counts st.

(** The runner object [self'] continues [self]: same client, same game,
    the records [new] added to the history and their people to the two
    lists of the tracker, which counts the same attributes. *)
Definition continues {F S} (new : list (PersonRecord F)) (self self' : GameRunner F S)
  : Prop :=
  api self' = api self
  /\ initial_game_info self' = initial_game_info self
  /\ game_started self' = game_started self
  /\ people_history self' = people_history self ++ new
  /\ admitted_people (current_stats self')
     = admitted_people (current_stats self)
       ++ map rec_attributes (List.filter (fun record => decision record) new)
  /\ rejected_people (current_stats self')
     = rejected_people (current_stats self)
       ++ map rec_attributes (List.filter (fun record => negb (decision record)) new)
  /\ (forall attr,
        is_Some (attribute_counts (current_stats self') !! attr)
        <-> is_Some (attribute_counts (current_stats self) !! attr))
  /\ (steps_taken (current_stats self) <= steps_taken (current_stats self')
      <= steps_taken (current_stats self) + len new)%Z
  /\ (game_state self' = game_state self
      \/ exists gs', game_state self' = Some gs' /\ constraints gs' = [])
  /\ (counts_exact (current_stats self) -> counts_exact (current_stats self')).

(** The two lists of the tracker are the history, split by decision, and
    the steps counted are at most the people seen. *)
Definition mirrors {F S} (self : GameRunner F S) : Prop :=
  map rec_attributes (get_admitted_people self) = admitted_people (current_stats self)
  /\ map rec_attributes (get_rejected_people self) = rejected_people (current_stats self)
  /\ (0 <= steps_taken (current_stats self) <= len (get_people_seen self))%Z.

(** The tracker counts the quota attributes of the game, and no other. *)
Definition keyed {F S} (self : GameRunner F S) : Prop :=
  match initial_game_info self with
  | Some info =>
    forall attr,
      is_Some (attribute_counts (current_stats self) !! attr)
      <-> attr ∈ map attribute (constraints info)
  | None =>
    game_started self = false
    /\ forall attr, attribute_counts (current_stats self) !! attr = None
  end.

(** A started runner holds a game state, as [decide_and_next] builds it. *)
Definition ready {F S} (self : GameRunner F S) : Prop :=
  game_started self = true ->
  exists gs, game_state self = Some gs /\ constraints gs = [].

(** A string of [n] slashes. *)
Definition slashes (n : nat) : string := String.string_of_list_ascii (repeat "/"%char n).

(** The runner objects a program can hold: a new one, and what
    [start_game], one pass of the loop of [step], and [step] leave, whether
    they return or raise. *)
Inductive session {F S : Type} `{DecisionStrategy F S} : GameRunner F S -> Prop :=
| session_new api_client strategy :
    session (GameRunner__init__ api_client strategy)
| session_start_game self w scenario :
    session self -> session (fst (snd (start_game scenario (self, w))))
| session_cycle self w num_steps show_progress i records :
    session self ->
    session (fst (snd (step_body num_steps show_progress i records (self, w))))
| session_step self w num_steps show_progress :
    session self -> session (fst (snd (step num_steps show_progress (self, w)))).

(* ===================================================================== *)
(** ** Concrete sessions *)
(* ===================================================================== *)

Section Examples.
Context {F : Type} `{PyFloat F}.

(** A process that has printed, drawn and sent nothing yet. *)
Definition world_of (draws : nat -> F) (replies : list (Reply F)) : World F :=
  {| entropy := draws; drawn := 0; clock := fun _ => of_int 0; ticks := 0;
     wire := replies; sent := []; stdout := [] |}.

(** A strategy object as [__init__] and [on_game_start] leave it. *)
Definition loaded (initial final start : F) (cs : list Constraint)
    (freqs : gmap string F) (corr : gmap string (gmap string F)) : Scenario1Strategy F :=
  {| initial_tolerance := initial; final_tolerance := final; strictness_start := start;
     _constraints := cs; _relative_frequencies := freqs; _correlations := corr;
     _attribute_statistics :=
       Some {| relative_frequencies := freqs; correlations := corr |} |}.

Definition quotas : list Constraint :=
  [ {| attribute := "young"; min_count := 600 |};
    {| attribute := "well_dressed"; min_count := 600 |} ].

Definition even_frequencies : gmap string F :=
  <["young" := dec 5 10]> (<["well_dressed" := dec 5 10]> ∅).

Definition default_strategy : Scenario1Strategy F :=
  loaded (dec 20 100) (dec 2 100) (dec 1 10) quotas even_frequencies ∅.


(** One quota, on an attribute the statistics say nothing about. *)
Definition blind_strategy : Scenario1Strategy F :=
  loaded (dec 20 100) (dec 2 100) (dec 1 10)
         [ {| attribute := "young"; min_count := 600 |} ]
         (<["well_dressed" := dec 5 10]> ∅) ∅.

(** One quota on an attribute everybody has, and on one nobody has. *)
Definition certain_strategy (freq : F) : Scenario1Strategy F :=
  loaded (dec 20 100) (dec 2 100) (dec 1 10)
         [ {| attribute := "young"; min_count := 600 |} ]
         (<["young" := freq]> ∅) ∅.

(** A game state as [decide_and_next] builds it. *)
Definition running (admitted : Z) (next : option Person) : GameState F :=
  {| game_id := "g"; status := "running"; admitted_count := admitted; rejected_count := 0;
     next_person := next; constraints := [];
     attribute_statistics := {| relative_frequencies := ∅; correlations := ∅ |} |}.

Definition nobody : Person :=
  {| person_index := 0;
     attributes := <["young" := false]> (<["well_dressed" := false]> ∅) |}.

Definition young_only : Person :=
  {| person_index := 1;
     attributes := <["young" := true]> (<["well_dressed" := false]> ∅) |}.

Definition well_dressed_only : Person :=
  {| person_index := 2;
     attributes := <["young" := false]> (<["well_dressed" := true]> ∅) |}.

Definition both : Person :=
  {| person_index := 3;
     attributes := <["young" := true]> (<["well_dressed" := true]> ∅) |}.

(** No quota attribute, but an attribute no quota names. *)
Definition tall_only : Person :=
  {| person_index := 4;
     attributes := <["tall" := true]> (<["young" := false]> (<["well_dressed" := false]> ∅)) |}.

(** The tracker after one admission, of [both]. *)
Definition one_of_both : Stats :=
  {| attribute_counts := <["young" := 1]> (<["well_dressed" := 1]> ∅);
     admitted_people := [attributes both]; rejected_people := []; steps_taken := 1 |}.


(** The tracker after two admissions, of [both] and of [nobody]. *)
Definition one_of_each : Stats :=
  {| attribute_counts := <["young" := 1]> (<["well_dressed" := 1]> ∅);
     admitted_people := [attributes both; attributes nobody]; rejected_people := [];
     steps_taken := 2 |}.

(** Correlations that make [both] print the correlation signal. *)
Definition strong_correlations : gmap string (gmap string F) :=
  <["young" := <["well_dressed" := dec 9 10]> ∅]>
    (<["well_dressed" := <["young" := dec 9 10]> ∅]> ∅).

(** What the service answers in a short game: the quotas and statistics,
    then [young_only], [nobody] and [both], then the end. *)
Definition short_game : list (Reply F) :=
  [ NewGameData "g" quotas even_frequencies ∅;
    NextData "running" (Some 0) (Some 0) (Some young_only);
    NextData "running" (Some 1) (Some 0) (Some nobody);
    NextData "running" (Some 1) (Some 1) (Some both);
    NextData "completed" (Some 2) (Some 1) None ].

Definition client : BerghainAPI :=
  {| base_url := "https://berghain.challenges.listenlabs.ai"; player_id := "player" |}.

(** A game whose first candidate has no attribute at all. *)
Definition empty_first_game : list (Reply F) :=
  [ NewGameData "g" quotas even_frequencies ∅;
    NextData "running" (Some 0) (Some 0) (Some nobody);
    NextData "running" (Some 0) (Some 1) (Some young_only);
    NextData "completed" (Some 1) (Some 1) None ].

(** [GameRunner(client, strategy)], [start_game(1)], [step(num_steps)]
    against a service that gives [replies], over the random source
    [draws]. *)
Definition play (strategy : Scenario1Strategy F) (draws : nat -> F)
    (replies : list (Reply F)) (num_steps : Z)
  : Result (list (PersonRecord F)) * (GameRunner F (Scenario1Strategy F) * World F) :=
  (start_game 1;; step num_steps true)
    (GameRunner__init__ client strategy, world_of draws replies).

(** The decisions of the records a call of [step] returns. *)
Definition decisions (r : Result (list (PersonRecord F))) : Result (list bool) :=
  match r with
  | Ok records => Ok (map decision records)
  | Raise e => Raise e
  end.

(** A game state that carries the quotas, as [new_game] builds it. *)
Definition informed (admitted : Z) (next : option Person) : GameState F :=
  {| game_id := "g"; status := "running"; admitted_count := admitted; rejected_count := 0;
     next_person := next; constraints := quotas;
     attribute_statistics :=
       {| relative_frequencies := even_frequencies; correlations := ∅ |} |}.

(** The strategy object [Scenario1Strategy(initial, final, start)]. *)
Definition constructed (initial final start : F) : Scenario1Strategy F :=
  {| initial_tolerance := initial; final_tolerance := final; strictness_start := start;
     _constraints := []; _relative_frequencies := ∅; _correlations := ∅;
     _attribute_statistics := None |}.

End Examples.

(* ===================================================================== *)
(** ** The exact reading: comparisons and constants over [Q] *)
(* ===================================================================== *)

Section ExactReading.
Local Open Scope Q_scope.

Lemma Qltb_lt (x y : Q) : Qltb x y = true <-> x < y.
Proof. unfold Qltb, Qlt. apply Z.ltb_lt. Qed.

Lemma Qltb_ge (x y : Q) : Qltb x y = false <-> y <= x.
Proof.
  unfold Qltb, Qle. rewrite Z.ltb_ge. reflexivity.
Qed.

Lemma Qleb_le (x y : Q) : Qle_bool x y = true <-> x <= y.
Proof. apply Qle_bool_iff. Qed.

Lemma Qleb_gt (x y : Q) : Qle_bool x y = false <-> y < x.
Proof.
  split; intros E.
  - apply Qnot_le_lt. intros L. apply Qleb_le in L. congruence.
  - destruct (Qle_bool x y) eqn:L; [|reflexivity].
    apply Qleb_le in L. exfalso. apply (Qlt_not_le _ _ E L).
Qed.

Lemma Qltb_reflect (x y : Q) : reflect (x < y) (Qltb x y).
Proof.
  destruct (Qltb x y) eqn:E; constructor.
  - now apply Qltb_lt.
  - apply Qle_not_lt. now apply Qltb_ge.
Qed.

Lemma Qleb_reflect (x y : Q) : reflect (x <= y) (Qle_bool x y).
Proof.
  destruct (Qle_bool x y) eqn:E; constructor.
  - now apply Qleb_le.
  - apply Qlt_not_le. now apply Qleb_gt.
Qed.

End ExactReading.

(** Case analysis on the comparisons of the exact reading, innermost first. *)
Ltac q_atom t :=
  lazymatch t with
  | context [Qltb _ _] => fail
  | context [Qle_bool _ _] => fail
  | _ => idtac
  end.

Ltac q_cases :=
  repeat match goal with
         | |- context [Qltb ?x ?y] => q_atom x; q_atom y; destruct (Qltb_reflect x y)
         | |- context [Qle_bool ?x ?y] => q_atom x; q_atom y; destruct (Qleb_reflect x y)
         end.

(* ===================================================================== *)
(** ** Dictionaries *)
(* ===================================================================== *)

Lemma no_attributes_spec (person : gmap string bool) :
  no_attributes person = true <-> forall attr, person !! attr <> Some true.
Proof.
  unfold no_attributes, dict_keys. rewrite forallb_forall. split.
  - intros A attr E.
    assert (I : In attr (map_to_list person).*1).
    { apply list_elem_of_In, list_elem_of_fmap. exists (attr, true). split; [done|].
      by apply elem_of_map_to_list. }
    specialize (A attr I). unfold dict_get in A. rewrite E in A. discriminate.
  - intros A attr I. apply list_elem_of_In, list_elem_of_fmap in I as [[k v] [-> I]].
    apply elem_of_map_to_list in I. simpl. unfold dict_get. rewrite I.
    destruct v; [|done]. exfalso. by apply (A k).
Qed.

Lemma forallb_false {A} (f : A -> bool) (l : list A) :
  forallb f l = false -> exists x, In x l /\ f x = false.
Proof.
  induction l as [|a l IH]; simpl; [discriminate|].
  destruct (f a) eqn:E; simpl.
  - intros N. destruct (IH N) as (x & I & X). exists x. auto.
  - intros _. exists a. auto.
Qed.

Lemma has_attribute_spec (person : gmap string bool) :
  no_attributes person = false <-> exists attr, person !! attr = Some true.
Proof.
  split.
  - intros E. apply forallb_false in E as (attr & _ & E). exists attr.
    unfold dict_get in E. destruct (person !! attr) as [[|]|]; done.
  - intros [attr A]. destruct (no_attributes person) eqn:E; [|done].
    exfalso. by apply (proj1 (no_attributes_spec person) E attr).
Qed.

Lemma dict_mem_lookup {V} (d : gmap string V) (k : string) :
  dict_mem d k = true -> exists v, d !! k = Some v.
Proof.
  unfold dict_mem. intros E. apply bool_decide_eq_true in E as [v E]. by exists v.
Qed.


Lemma dict_nonempty_lookup {V} (d : gmap string V) (k : string) (v : V) :
  d !! k = Some v -> dict_nonempty d = true.
Proof.
  intros E. unfold dict_nonempty. apply negb_true_iff, bool_decide_eq_false.
  intros ->. rewrite lookup_empty in E. discriminate.
Qed.

(* ===================================================================== *)
(** ** The order of the gates of [decide] *)
(* ===================================================================== *)

Section Gates.
Context {F : Type} `{PyFloat F}.

(** Unfolding a sequence. *)
Lemma bind_run {St A B} (c : StExn St A) (k : A -> StExn St B) (s : St) :
  (c ≫= k) s = match c s with
               | (Ok a, s') => k a s'
               | (Raise e, s') => (Raise e, s')
               end.
Proof. reflexivity. Qed.

(** Capacity gate: a full venue rejects, whoever comes. *)
Lemma decide_full (self : Scenario1Strategy F) (person : Person) (game_state : GameState F)
    (current_stats : Stats) (show_progress : bool) (w : World F) :
  1000 <= admitted_count game_state ->
  decide self person game_state current_stats show_progress w = (Ok (false, self), w).
Proof.
  intros L. unfold decide.
  destruct (Z.geb_spec (admitted_count game_state) 1000); [reflexivity | lia].
Qed.

(** C1, as amended.  While nobody has been admitted (the list of admitted
    people is empty and the venue is not full), a candidate with at least
    one attribute true is admitted, whatever the random source holds: the
    process, and with it the number of draws consumed, is left as it was. *)
Theorem bootstrap_admits_attributed_candidate (self : Scenario1Strategy F) (person : Person)
    (game_state : GameState F) (current_stats : Stats) (show_progress : bool) (w : World F) :
  admitted_count game_state < 1000 ->
  admitted_people current_stats = [] ->
  (exists attr, attributes person !! attr = Some true) ->
  decide self person game_state current_stats show_progress w = (Ok (true, self), w).
Proof.
  intros Hc He Ha. apply has_attribute_spec in Ha. unfold decide.
  destruct (Z.geb_spec (admitted_count game_state) 1000) as [L|L]; [lia|].
  rewrite Ha, He. reflexivity.
Qed.

(** C2, as amended.  A candidate all of whose attributes are false, at a
    venue that is not full, is handed to the no-attribute sub-policy, and
    the decision of the sub-policy is the decision of [decide]. *)
Theorem empty_candidate_delegates (self : Scenario1Strategy F) (person : Person)
    (game_state : GameState F) (current_stats : Stats) (show_progress : bool) (w : World F) :
  admitted_count game_state < 1000 ->
  (forall attr, attributes person !! attr <> Some true) ->
  decide self person game_state current_stats show_progress w
  = (decision ← _decide_no_attributes_person self (admitted_count game_state)
                                             current_stats show_progress;
     mret (decision, self)) w.
Proof.
  intros Hc Ha. apply no_attributes_spec in Ha. unfold decide.
  destruct (Z.geb_spec (admitted_count game_state) 1000) as [L|L]; [lia|].
  rewrite Ha. reflexivity.
Qed.

End Gates.

(* ===================================================================== *)
(** ** The per-quota path prints and decides, and nothing else *)
(* ===================================================================== *)

Section PerQuota.
Context {F : Type} `{PyFloat F}.

Lemma emit_emit (out1 out2 : list (Printed F)) (w : World F) :
  emit out2 (emit out1 w) = emit (out2 ++ out1) w.
Proof. unfold emit. simpl. by rewrite app_assoc. Qed.

Lemma emit_nil (w : World F) : emit [] w = w.
Proof. by destruct w. Qed.

Lemma agree_ret {A} (a : A) : agree (F:=F) (mret a) (mret a).
Proof. exists a, [], []. split; intros w; by rewrite emit_nil. Qed.

Lemma agree_bind {A B} (c1 c2 : M F A) (k1 k2 : A -> M F B) :
  agree c1 c2 -> (forall a, agree (k1 a) (k2 a)) -> agree (c1 ≫= k1) (c2 ≫= k2).
Proof.
  intros (a & o1 & o2 & E1 & E2) K. destruct (K a) as (b & p1 & p2 & K1 & K2).
  exists b, (p1 ++ o1), (p2 ++ o2). split; intros w; rewrite bind_run.
  - by rewrite E1, K1, emit_emit.
  - by rewrite E2, K2, emit_emit.
Qed.

Lemma agree_ret_bind {A B} (a : A) (k1 k2 : A -> M F B) :
  agree (k1 a) (k2 a) -> agree (mret a ≫= k1) (mret a ≫= k2).
Proof.
  intros (b & o1 & o2 & E1 & E2). exists b, o1, o2.
  split; intros w; rewrite bind_run; [apply E1 | apply E2].
Qed.

Lemma agree_print (p1 p2 : Printed F) : agree (print p1) (print p2).
Proof. exists tt, [p1], [p2]. split; intros w; reflexivity. Qed.

(** Two computations that only print agree: they both return [None]. *)
Lemma agree_unit (c1 c2 : M F unit) : agree c1 c1 -> agree c2 c2 -> agree c1 c2.
Proof.
  intros ([] & o1 & _ & E1 & _) ([] & o2 & _ & E2 & _). by exists tt, o1, o2.
Qed.

Lemma agree_when (b : bool) (c : M F unit) : agree c c -> agree (when b c) (when b c).
Proof. intros C. destruct b; [exact C | apply agree_ret]. Qed.

Lemma agree_value {A} (c1 c2 : M F A) :
  agree c1 c2 -> exists a, forall w1 w2, fst (c1 w1) = Ok a /\ fst (c2 w2) = Ok a.
Proof.
  intros (a & o1 & o2 & E1 & E2). exists a. intros w1 w2. by rewrite E1, E2.
Qed.

Lemma subscript_some {St V} (d : gmap string V) (k : string) (v : V) :
  d !! k = Some v -> subscript (St:=St) d k = mret v.
Proof. intros E. unfold subscript. by rewrite E. Qed.

(** The guard [other_attr in self._correlations.get(attr, {})] makes both
    subscripts of the correlation loop succeed: no [KeyError]. *)
Lemma add_correlations_agree (self : Scenario1Strategy F) (attr : string)
    (person_attrs : list string) (bonus : F) :
  agree (add_correlations self attr person_attrs bonus)
        (add_correlations self attr person_attrs bonus).
Proof.
  unfold add_correlations.
  revert bonus. induction person_attrs as [|o l IH]; intros bonus; cbn [for_each].
  - apply agree_ret.
  - apply agree_bind; [|intros a; apply IH].
    destruct (negb (String.eqb o attr)
              && dict_mem (dict_get (_correlations self) attr ∅) o) eqn:G;
      [|apply agree_ret].
    apply andb_prop in G as [_ G]. apply dict_mem_lookup in G as [v G].
    unfold dict_get in G.
    destruct (_correlations self !! attr) as [row|] eqn:R.
    + rewrite (subscript_some _ _ _ R). apply agree_ret_bind.
      rewrite (subscript_some _ _ _ G). apply agree_ret_bind.
      destruct (ltb (dec 1 10) v); apply agree_ret.
    + rewrite lookup_empty in G. discriminate.
Qed.

Lemma correlation_signal_prints (self : Scenario1Strategy F) (person : Person)
    (attr : string) (has show : bool) :
  agree (correlation_signal self person attr has show)
        (correlation_signal self person attr has show).
Proof.
  unfold correlation_signal.
  destruct (has && _); [|apply agree_ret]. destruct (len _ >? 1); [|apply agree_ret].
  apply agree_bind; [apply add_correlations_agree|]. intros bonus.
  apply agree_when, agree_print.
Qed.

Lemma check_constraint_agree (self : Scenario1Strategy F)
    (corr : gmap string (gmap string F)) (person : Person) (stats : Stats) (show : bool)
    (total remaining : Z) (tol : F) (c : Constraint) :
  agree (check_constraint self person stats show total remaining tol c)
        (check_constraint (with_correlations self corr) person stats show total remaining
                          tol c).
Proof.
  unfold check_constraint. cbn [with_correlations _relative_frequencies].
  change (_calculate_expected_attribute_yield (with_correlations self corr))
    with (_calculate_expected_attribute_yield self).
  destruct (_ && _).
  { apply agree_bind; [apply agree_when, agree_print | intros; apply agree_ret]. }
  apply agree_bind.
  - destruct (_ && _); [|apply agree_ret].
    destruct (_ && _).
    + destruct (ltb _ _); [|apply agree_ret].
      apply agree_bind; [apply agree_when, agree_print | intros; apply agree_ret].
    + destruct (ltb _ _); [|apply agree_ret].
      apply agree_bind; [apply agree_when, agree_print | intros; apply agree_ret].
  - intros [|]; [apply agree_ret|].
    apply agree_bind; [|intros; apply agree_ret].
    apply agree_unit; apply correlation_signal_prints.
Qed.

Lemma check_constraints_agree (self : Scenario1Strategy F)
    (corr : gmap string (gmap string F)) (person : Person) (stats : Stats) (show : bool)
    (total remaining : Z) (tol : F) (cs : list Constraint) :
  agree (check_constraints self person stats show total remaining tol cs)
        (check_constraints (with_correlations self corr) person stats show total remaining
                           tol cs).
Proof.
  induction cs as [|c cs IH]; cbn [check_constraints].
  - apply agree_ret.
  - apply agree_bind; [apply check_constraint_agree|].
    intros [|]; [apply agree_ret | apply IH].
Qed.

Lemma decide_with_constraints_agree (self : Scenario1Strategy F)
    (corr : gmap string (gmap string F)) (person : Person) (stats : Stats) (show : bool)
    (cs : list Constraint) :
  agree (decide_with_constraints self person stats show cs)
        (decide_with_constraints (with_correlations self corr) person stats show cs).
Proof.
  unfold decide_with_constraints. cbn [with_correlations _relative_frequencies].
  change (_calculate_current_tolerance (with_correlations self corr))
    with (_calculate_current_tolerance self).
  apply agree_bind; [|intros; apply check_constraints_agree].
  apply agree_when, agree_bind; [apply agree_print|].
  intros. apply agree_when, agree_print.
Qed.

(** C9.  For a candidate with at least one attribute true, [decide]
    returns a boolean, and it returns the same boolean when the strategy
    holds any other correlations mapping: the correlation signal is printed
    and decides nothing. *)
Theorem correlations_decide_nothing (self : Scenario1Strategy F)
    (corr : gmap string (gmap string F)) (person : Person) (game_state : GameState F)
    (current_stats : Stats) (show_progress : bool) (w : World F) :
  (exists attr, attributes person !! attr = Some true) ->
  exists b : bool,
    decision_of (fst (decide self person game_state current_stats show_progress w)) = Ok b
    /\ decision_of (fst (decide (with_correlations self corr) person game_state
                                current_stats show_progress w)) = Ok b.
Proof.
  intros Ha. apply has_attribute_spec in Ha. unfold decide. rewrite Ha.
  cbn [with_correlations _constraints].
  destruct (admitted_count game_state >=? 1000); [by exists false|].
  destruct (len (admitted_people current_stats) =? 0); [by exists true|].
  destruct (negb (list_nonempty (_constraints self))).
  - destruct (list_nonempty (constraints game_state)); [|by exists true].
    destruct (agree_value _ _
                (decide_with_constraints_agree
                   (set_constraints self (constraints game_state)) corr person
                   current_stats show_progress (constraints game_state))) as [b E].
    exists b. destruct (E w w) as [E1 E2]. rewrite !bind_run.
    change (set_constraints (with_correlations self corr) (constraints game_state))
      with (with_correlations (set_constraints self (constraints game_state)) corr).
    destruct (decide_with_constraints (set_constraints self _) _ _ _ _ w) as [r1 w1].
    destruct (decide_with_constraints (with_correlations _ _) _ _ _ _ w) as [r2 w2].
    cbn [fst] in E1, E2. subst. by split.
  - destruct (agree_value _ _
                (decide_with_constraints_agree self corr person current_stats
                   show_progress (_constraints self))) as [b E].
    exists b. destruct (E w w) as [E1 E2]. rewrite !bind_run.
    destruct (decide_with_constraints self _ _ _ _ w) as [r1 w1].
    destruct (decide_with_constraints (with_correlations _ _) _ _ _ _ w) as [r2 w2].
    cbn [fst] in E1, E2. subst. by split.
Qed.

End PerQuota.

(* ===================================================================== *)
(** ** The tolerance schedule *)
(* ===================================================================== *)

Section ToleranceSchedule.
Local Open Scope Q_scope.








End ToleranceSchedule.

(* ===================================================================== *)
(** ** The no-attribute target *)
(* ===================================================================== *)

Section NoAttributeTarget.
Local Open Scope Q_scope.

Lemma clamp_target (x : Q) : 5 # 100 <= py_max (5 # 100) (py_min (8 # 10) x) <= 8 # 10.
Proof.
  unfold py_max, py_min. cbn [ltb Q_float]. q_cases; lra.
Qed.

(** C7.  With exactly two quotas, on attributes of frequency 0.5 each and
    of correlation 0, the estimated probability of having neither
    attribute is 0.25. *)
Theorem neither_of_two_independent (self : Scenario1Strategy Q) (quotaA quotaB : Constraint)
    (freqA freqB : Q) :
  _constraints self = [quotaA; quotaB] ->
  _relative_frequencies self !! attribute quotaA = Some freqA -> freqA == 5 # 10 ->
  _relative_frequencies self !! attribute quotaB = Some freqB -> freqB == 5 # 10 ->
  dict_get (dict_get (_correlations self) (attribute quotaA) ∅) (attribute quotaB) 0 == 0 ->
  _calculate_no_attributes_target_with_statistics self == 25 # 100.
Proof.
  intros Hc HA EA HB EB Hcorr.
  unfold _calculate_no_attributes_target_with_statistics.
  rewrite Hc, (dict_nonempty_lookup _ _ _ HA). cbn [list_nonempty negb orb map].
  revert Hcorr. cbn [dec Q_float].
  generalize (dict_get (dict_get (_correlations self) (attribute quotaA) ∅)
                       (attribute quotaB) 0).
  intros corr Hcorr.
  unfold dict_get. rewrite HA, HB.
  unfold py_max, py_min. cbn [ltb add sub mul div of_int dec Q_float].
  change (inject_Z 0) with 0. change (inject_Z 1) with 1.
  q_cases; nra.
Qed.

Lemma neither_of_two_independent_witness :
  _calculate_no_attributes_target_with_statistics (F:=Q) default_strategy == 25 # 100.
Proof.
  apply (neither_of_two_independent default_strategy
           {| attribute := "young"; min_count := 600 |}
           {| attribute := "well_dressed"; min_count := 600 |} (5 # 10) (5 # 10));
    reflexivity.
Defined.

(** The same estimate in binary64: every operation on the way is exact. *)
Example neither_of_two_independent_binary64 :
  _calculate_no_attributes_target_with_statistics (F:=float) default_strategy = 0.25%float.
Proof. vm_compute. reflexivity. Qed.

(** C10.  With frequencies available, two or more quotas give a target
    between 0.05 and 0.8; exactly one quota gives one minus the frequency
    of its attribute (0.5 when absent), unclamped, so the target is 0 when
    the frequency is 1 and 1 when it is 0. *)
Theorem no_attribute_target_range (self : Scenario1Strategy Q) :
  dict_nonempty (_relative_frequencies self) = true ->
  match _constraints self with
  | [] => True
  | [quota] =>
    let freq := dict_get (_relative_frequencies self) (attribute quota) (5 # 10) in
    _calculate_no_attributes_target_with_statistics self = 1 - freq
    /\ (freq == 1 -> _calculate_no_attributes_target_with_statistics self == 0)
    /\ (freq == 0 -> _calculate_no_attributes_target_with_statistics self == 1)
  | _ :: _ :: _ =>
    5 # 100 <= _calculate_no_attributes_target_with_statistics self <= 8 # 10
  end.
Proof.
  intros Hf. unfold _calculate_no_attributes_target_with_statistics. rewrite Hf.
  destruct (_constraints self) as [|c [|c' [|c'' cs]]]; cbn [list_nonempty negb orb map].
  - exact I.
  - cbn [sub dec Q_float]. split; [reflexivity | split; intros E; rewrite E; reflexivity].
  - apply clamp_target.
  - apply clamp_target.
Qed.

Lemma no_attribute_target_range_witness :
  (5 # 100 <= _calculate_no_attributes_target_with_statistics (F:=Q) default_strategy
   <= 8 # 10)
  /\ _calculate_no_attributes_target_with_statistics (F:=Q) (certain_strategy 1) == 0
  /\ _calculate_no_attributes_target_with_statistics (F:=Q) (certain_strategy 0) == 1.
Proof.
  split; [|split].
  - apply (no_attribute_target_range default_strategy). reflexivity.
  - apply (no_attribute_target_range (certain_strategy 1)); reflexivity.
  - apply (no_attribute_target_range (certain_strategy 0)); reflexivity.
Defined.

(** The two unclamped targets in binary64. *)
Example no_attribute_target_unclamped_binary64 :
  _calculate_no_attributes_target_with_statistics (F:=float) (certain_strategy 1%float)
  = 0%float
  /\ _calculate_no_attributes_target_with_statistics (F:=float) (certain_strategy 0%float)
     = 1%float.
Proof. split; vm_compute; reflexivity. Qed.

End NoAttributeTarget.

(* ===================================================================== *)
(** ** The under-representation check without a frequency *)
(* ===================================================================== *)

Section AbsentFrequency.
Context {F : Type} `{PyFloat F}.
Local Open Scope py_scope.


End AbsentFrequency.

Section AbsentFrequencyExact.
Local Open Scope Q_scope.




End AbsentFrequencyExact.

(* ===================================================================== *)
(** ** The gates of [decide] on concrete candidates *)
(* ===================================================================== *)

(** The first candidate of a session, nobody admitted yet, all attributes
    false, the random source yielding 0.9: the sub-policy draws against a
    rate of 0.3 and rejects.  The same happens when the runner plays the
    game, in exact arithmetic and in binary64. *)
Lemma first_empty_candidate_is_rejected :
  admitted_count (running (F:=Q) 0 (Some nobody)) = 0
  /\ admitted_people fresh_stats = []
  /\ (forall attr, attributes nobody !! attr <> Some true)
  /\ decision_of (fst (decide (F:=Q) default_strategy nobody (running 0 (Some nobody))
                              fresh_stats true (world_of (fun _ => 9 # 10) [])))
     = Ok false
  /\ decisions (fst (play (F:=Q) (constructed (20 # 100) (2 # 100) (1 # 10))
                          (fun _ => 9 # 10) empty_first_game 1))
     = Ok [false]
  /\ decisions (fst (play (F:=float) (constructed (dec 20 100) (dec 2 100) (dec 1 10))
                          (fun _ => dec 9 10) empty_first_game 1))
     = Ok [false].
Proof.
  split; [reflexivity|]. split; [reflexivity|].
  split; [apply no_attributes_spec; vm_compute; reflexivity|].
  repeat split; vm_compute; reflexivity.
Qed.

Lemma bootstrap_admits_attributed_candidate_witness :
  decide (F:=Q) default_strategy young_only (running 0 (Some young_only)) fresh_stats true
         (world_of (fun _ => 9 # 10) [])
  = (Ok (true, default_strategy), world_of (fun _ => 9 # 10) []).
Proof.
  apply (bootstrap_admits_attributed_candidate default_strategy young_only
           (running 0 (Some young_only)) fresh_stats true (world_of (fun _ => 9 # 10) [])).
  - reflexivity.
  - reflexivity.
  - exists "young". reflexivity.
Defined.

(** A candidate with no quota attribute but with [tall], after one
    admission: [decide] walks the quotas and admits, while the sub-policy,
    asked in the same state, rejects. *)
Lemma unconstrained_attribute_skips_sub_policy :
  Forall (fun quota => attributes tall_only !! attribute quota <> Some true)
         (_constraints (F:=Q) default_strategy)
  /\ attributes tall_only !! "tall" = Some true
  /\ fst (decide (F:=Q) default_strategy tall_only (running 1 (Some tall_only))
                 one_of_both true (world_of (fun _ => 9 # 10) []))
     = Ok (true, default_strategy)
  /\ fst (_decide_no_attributes_person (F:=Q) default_strategy 1 one_of_both true
                                       (world_of (fun _ => 9 # 10) []))
     = Ok false
  /\ decision_of (fst (decide (F:=float) default_strategy tall_only
                              (running 1 (Some tall_only)) one_of_both true
                              (world_of (fun _ => dec 9 10) [])))
     = Ok true
  /\ fst (_decide_no_attributes_person (F:=float) default_strategy 1 one_of_both true
                                       (world_of (fun _ => dec 9 10) []))
     = Ok false.
Proof.
  split; [repeat constructor; vm_compute; congruence|].
  repeat split; vm_compute; reflexivity.
Qed.

Lemma empty_candidate_delegates_witness :
  decide (F:=Q) default_strategy nobody (running 1 (Some nobody)) one_of_both true
         (world_of (fun _ => 9 # 10) [])
  = (decision ← _decide_no_attributes_person default_strategy 1 one_of_both true;
     mret (decision, default_strategy)) (world_of (fun _ => 9 # 10) []).
Proof.
  apply (empty_candidate_delegates default_strategy nobody (running 1 (Some nobody))
           one_of_both true (world_of (fun _ => 9 # 10) [])).
  - reflexivity.
  - apply no_attributes_spec. vm_compute. reflexivity.
Defined.

Lemma correlations_decide_nothing_witness :
  exists b : bool,
    decision_of (fst (decide (F:=Q) default_strategy both (running 2 (Some both))
                             one_of_each true (world_of (fun _ => 9 # 10) [])))
    = Ok b
    /\ decision_of (fst (decide (F:=Q) (with_correlations default_strategy
                                                          strong_correlations)
                                both (running 2 (Some both)) one_of_each true
                                (world_of (fun _ => 9 # 10) [])))
       = Ok b.
Proof.
  apply (correlations_decide_nothing default_strategy strong_correlations both
           (running 2 (Some both)) one_of_each true (world_of (fun _ => 9 # 10) [])).
  exists "young". reflexivity.
Defined.

(** With the strong correlations [decide] prints the correlation signal,
    once per quota, and still admits, as it does without them. *)
Example correlation_signal_is_printed :
  stdout (snd (decide (F:=Q) (with_correlations default_strategy strong_correlations)
                      both (running 2 (Some both)) one_of_each true
                      (world_of (fun _ => 9 # 10) [])))
  = [ CorrelatedAttributes "well_dressed" (0 + (9 # 10))%Q;
      CorrelatedAttributes "young" (0 + (9 # 10))%Q ]
  /\ stdout (snd (decide (F:=Q) default_strategy both (running 2 (Some both))
                         one_of_each true (world_of (fun _ => 9 # 10) [])))
     = []
  /\ decision_of (fst (decide (F:=Q) default_strategy both (running 2 (Some both))
                              one_of_each true (world_of (fun _ => 9 # 10) [])))
     = Ok true.
Proof. repeat split; vm_compute; reflexivity. Qed.

(* ===================================================================== *)
(** ** Creating a strategy and starting a session *)
(* ===================================================================== *)

Section Creation.
Context {F : Type} `{PyFloat F}.

(** The one check made when a session is created: the scenario number.
    It fails before any request is sent. *)
Lemma new_game_bad_scenario (api_client : BerghainAPI) (scenario : Z) (w : World F) :
  scenario ∉ [1; 2; 3] ->
  new_game api_client scenario w = (Raise (ValueError "Scenario must be 1, 2, or 3"), w).
Proof.
  intros N. unfold new_game. rewrite bool_decide_eq_false_2; [reflexivity | exact N].
Qed.



(** The defaults go the same way. *)
Example creation_with_defaults (w : World F) :
  __init__defaults w = (Ok (constructed (dec 20 100) (dec 2 100) (dec 1 10)), w).
Proof. reflexivity. Qed.

End Creation.



(* ===================================================================== *)
(** ** The tracker of the runner *)
(* ===================================================================== *)

Section Tracker.
Context {F S : Type} `{DecisionStrategy F S}.

Lemma preserves_ret {A} (Inv : GameRunner F S -> Prop) (a : A) :
  preserves Inv (mret a : RM F S A).
Proof. intros self w I. exact I. Qed.

Lemma preserves_raise {A} (Inv : GameRunner F S -> Prop) (e : Exn) :
  preserves Inv (raise e : RM F S A).
Proof. intros self w I. exact I. Qed.

Lemma preserves_bind {A B} (Inv : GameRunner F S -> Prop) (c : RM F S A)
    (k : A -> RM F S B) :
  preserves Inv c -> (forall a, preserves Inv (k a)) -> preserves Inv (c ≫= k).
Proof.
  intros C K self w I. rewrite bind_run. specialize (C self w I).
  destruct (c (self, w)) as [[a|e] [self' w']]; cbn [fst snd] in *.
  - apply K, C.
  - exact C.
Qed.

Lemma preserves_io {A} (Inv : GameRunner F S -> Prop) (c : M F A) :
  preserves Inv (io c : RM F S A).
Proof. intros self w I. unfold io. destruct (c w). exact I. Qed.

Lemma preserves_get_self (Inv : GameRunner F S -> Prop) : preserves Inv get_self.
Proof. intros self w I. exact I. Qed.

Lemma preserves_set_self (Inv : GameRunner F S -> Prop)
    (f : GameRunner F S -> GameRunner F S) :
  (forall self, Inv self -> Inv (f self)) -> preserves Inv (set_self f).
Proof. intros Hf self w I. apply Hf, I. Qed.

Lemma preserves_when (Inv : GameRunner F S -> Prop) (b : bool) (c : RM F S unit) :
  preserves Inv c -> preserves Inv (when b c).
Proof. intros C. destruct b; [exact C | apply preserves_ret]. Qed.

(** The counting loop raises nothing, leaves the runner alone, and adds
    one to the count of each true attribute that is tracked, once: the keys
    of a dictionary are distinct. *)
Lemma count_attributes_run (items : list (string * bool)) (counts : gmap string Z)
    (s : GameRunner F S * World F) :
  NoDup items.*1 ->
  exists counts',
    for_each items counts count_attribute s = (Ok counts', s)
    /\ forall attr,
         counts' !! attr
         = (fun n => if bool_decide ((attr, true) ∈ items) then n + 1 else n)
             <$> counts !! attr.
Proof.
  revert counts. induction items as [|[a v] l IH]; intros counts D; cbn [for_each].
  - exists counts. split; [reflexivity|]. intros attr.
    destruct (counts !! attr); cbn; [|done]. rewrite bool_decide_eq_false_2; [done|].
    apply not_elem_of_nil.
  - apply NoDup_cons in D as [Da D]. cbn [fst] in Da. rewrite bind_run.
    unfold count_attribute at 1.
    assert (Fresh : forall b, (a, b) ∉ l).
    { intros b I. apply Da. apply list_elem_of_fmap. by exists (a, b). }
    destruct (v && dict_mem counts a) eqn:G.
    + apply andb_prop in G as [-> G]. apply dict_mem_lookup in G as [n G].
      rewrite (subscript_some _ _ _ G). rewrite bind_run. cbn [mret StExn_ret].
      destruct (IH (<[a := n + 1]> counts) D) as (counts' & E & Eq).
      exists counts'. split; [exact E|]. intros attr. rewrite Eq.
      destruct (base.decide (attr = a)) as [->|Na].
      * rewrite lookup_insert_eq, G. cbn.
        rewrite (bool_decide_eq_false_2 _ (Fresh true)).
        rewrite bool_decide_eq_true_2; [done | apply list_elem_of_here].
      * rewrite lookup_insert_ne by done. destruct (counts !! attr); cbn; [|done].
        f_equal. apply (f_equal (fun b : bool => if b then (z + 1) else z)).
        apply bool_decide_ext. rewrite elem_of_cons. split; [by right|].
        intros [X|X]; [congruence | exact X].
    + cbn [mret StExn_ret]. destruct (IH counts D) as (counts' & E & Eq).
      exists counts'. split; [exact E|]. intros attr. rewrite Eq.
      destruct (counts !! attr) as [z|] eqn:L; cbn; [|done].
      f_equal. apply (f_equal (fun b : bool => if b then (z + 1) else z)).
      apply bool_decide_ext. rewrite elem_of_cons. split; [by right|].
      intros [X|X]; [|exact X]. injection X as -> <-.
      apply andb_false_iff in G as [G|G]; [discriminate|].
      unfold dict_mem in G. apply bool_decide_eq_false in G. rewrite L in G.
      exfalso. apply G. by eexists.
Qed.

(** What [Update statistics] does: on an admission the candidate joins the
    admitted people and the count of each tracked attribute the candidate
    has grows by one; on a rejection the candidate joins the rejected
    people and the counts stay. *)
Lemma update_statistics_run (person : Person) (decision : bool) (self : GameRunner F S)
    (w : World F) :
  exists stats',
    update_statistics person decision (self, w) = (Ok tt, (with_current_stats stats' self, w))
    /\ steps_taken stats' = steps_taken (current_stats self)
    /\ if decision then
         admitted_people stats' = admitted_people (current_stats self) ++ [attributes person]
         /\ rejected_people stats' = rejected_people (current_stats self)
         /\ forall attr,
              attribute_counts stats' !! attr
              = (fun n => if dict_get (attributes person) attr false then n + 1 else n)
                  <$> attribute_counts (current_stats self) !! attr
       else
         admitted_people stats' = admitted_people (current_stats self)
         /\ rejected_people stats' = rejected_people (current_stats self) ++ [attributes person]
         /\ attribute_counts stats' = attribute_counts (current_stats self).
Proof.
  unfold update_statistics. destruct decision.
  - rewrite bind_run. cbn [set_self]. rewrite bind_run. cbn [get_self]. rewrite bind_run.
    match goal with
    | |- context [for_each ?l ?c count_attribute ?s] =>
      destruct (count_attributes_run l c s (NoDup_fst_map_to_list _)) as (counts' & -> & Eq)
    end.
    cbn [set_self]. eexists. split; [reflexivity|]. cbn. repeat split.
    intros attr. rewrite Eq. cbn. destruct (attribute_counts (current_stats self) !! attr);
      cbn; [|done].
    f_equal. unfold dict_get, dict_items.
    destruct (attributes person !! attr) as [[|]|] eqn:L.
    + rewrite bool_decide_eq_true_2; [done|]. by apply elem_of_map_to_list.
    + rewrite bool_decide_eq_false_2; [done|]. intros I.
      apply elem_of_map_to_list in I. congruence.
    + rewrite bool_decide_eq_false_2; [done|]. intros I.
      apply elem_of_map_to_list in I. congruence.
  - cbn [set_self]. eexists. split; [reflexivity|]. cbn. repeat split.
Qed.

End Tracker.

Section TrackerInvariant.
Context {F S : Type} `{DecisionStrategy F S}.

(** The invariant of the tracker, on the runner object. *)
Let tracked (self : GameRunner F S) : Prop := counts_bounded (current_stats self).

(** The tracker right after [start_game] has set the counts: nobody
    admitted, every count 0. *)
Let untouched (self : GameRunner F S) : Prop :=
  admitted_people (current_stats self) = []
  /\ forall attr n, attribute_counts (current_stats self) !! attr = Some n -> n = 0.

Lemma untouched_tracked (self : GameRunner F S) : untouched self -> tracked self.
Proof.
  intros [E Z0] attr n L. rewrite E, (Z0 attr n L). unfold len. simpl. lia.
Qed.

(** [attribute_counts[constraint.attribute] = 0] for every constraint. *)
Lemma zero_counts (quotas : list Constraint) (counts : gmap string Z) :
  (forall attr n, counts !! attr = Some n -> n = 0) ->
  forall attr n,
    fold_left (fun counts constraint => <[attribute constraint := 0]> counts) quotas counts
      !! attr = Some n ->
    n = 0.
Proof.
  revert counts. induction quotas as [|q qs IH]; intros counts Z0 attr n; cbn [fold_left].
  - apply Z0.
  - apply IH. intros attr' n' L.
    destruct (base.decide (attribute q = attr')) as [E|N].
    + rewrite E, lookup_insert_eq in L. by injection L as <-.
    + rewrite lookup_insert_ne in L by done. by apply (Z0 attr').
Qed.

(** [Update statistics] keeps the invariant: on an admission the number
    of admitted people grows by one and no count grows by more. *)
Lemma update_statistics_tracked (person : Person) (decision : bool) :
  preserves tracked (update_statistics person decision).
Proof.
  intros self w I.
  destruct (update_statistics_run person decision self w) as (stats' & -> & _ & E).
  cbn [fst snd]. intros attr n' L. cbn in L |- *. destruct decision.
  - destruct E as (Ea & _ & Eq). rewrite Ea. rewrite Eq in L.
    destruct (attribute_counts (current_stats self) !! attr) as [n|] eqn:L0; [|done].
    specialize (I attr n L0). cbn in L. injection L as <-.
    unfold len in *. rewrite length_app. cbn [length].
    destruct (dict_get _ _ _); lia.
  - destruct E as (Ea & _ & Eq). rewrite Ea. rewrite Eq in L. exact (I attr n' L).
Qed.

Lemma display_game_info_tracked (Inv : GameRunner F S -> Prop) :
  preserves Inv display_game_info.
Proof.
  unfold display_game_info. apply preserves_bind; [apply preserves_get_self|].
  intros self. destruct (game_state self); apply preserves_io.
Qed.

(** Steps of a proof that a method keeps an invariant which the
    assignments other than to the tracker keep by computation. *)
Ltac keeps :=
  repeat first
    [ apply preserves_ret
    | apply preserves_raise
    | apply preserves_io
    | apply preserves_get_self
    | apply display_game_info_tracked
    | apply preserves_when
    | apply preserves_set_self; intros ? I; exact I
    | apply preserves_bind; [|intros ?] ].

Lemma step_body_tracked (num_steps : Z) (show_progress : bool) (i : Z)
    (records : list (PersonRecord F)) :
  preserves tracked (step_body num_steps show_progress i records).
Proof.
  unfold step_body. keeps.
  destruct (game_state _) as [gs|]; [|keeps].
  destruct (next_person gs) as [person|]; [|keeps].
  destruct (negb _); [keeps|].
  apply preserves_bind; [keeps|]. intros [decision strategy'].
  keeps.
  - apply update_statistics_tracked.
  - destruct (negb _); keeps.
Qed.

Lemma step_loop_tracked (num_steps : Z) (show_progress : bool) (todo : nat) (i : Z)
    (records : list (PersonRecord F)) :
  preserves tracked (step_loop num_steps show_progress todo i records).
Proof.
  revert i records. induction todo as [|todo IH]; intros i records; cbn [step_loop].
  - apply preserves_ret.
  - apply preserves_bind; [apply step_body_tracked|].
    intros [[|] records']; [apply IH | apply preserves_ret].
Qed.

Lemma step_tracked (num_steps : Z) (show_progress : bool) :
  preserves tracked (step num_steps show_progress).
Proof.
  unfold step. apply preserves_bind; [apply preserves_get_self|]. intros self.
  destruct (_ || _); [keeps | apply step_loop_tracked].
Qed.

Lemma start_game_tracked (scenario : Z) : preserves tracked (start_game scenario).
Proof.
  unfold start_game. apply preserves_bind; [apply preserves_io|]. intros _.
  intros self w _. rewrite bind_run. cbn [reset set_self].
  apply untouched_tracked.
  match goal with
  | |- untouched (fst (snd (?c (?r, w)))) =>
    assert (P : preserves untouched c); [|apply (P r w)]
  end.
  - keeps.
    apply preserves_set_self. intros r [E Z0]. split; [exact E|].
    cbn. apply zero_counts, Z0.
  - split; [reflexivity|]. intros attr n L. cbn in L. by rewrite lookup_empty in L.
Qed.

(** C6.  Whatever the strategy decides and the service answers, in every
    runner object a program can hold (a new one, or one left by
    [start_game], by a pass of the loop of [step], or by [step], returned
    from or interrupted by an error), each tracked count is at most the
    number of admitted people; and recording an admission makes the number
    of admitted people grow by exactly one and each tracked count by one at
    most. *)
Theorem counts_at_most_admitted (self : GameRunner F S) :
  session self ->
  (forall attr n,
     attribute_counts (current_stats self) !! attr = Some n ->
     n <= len (admitted_people (current_stats self)))
  /\ forall person w,
       let after := current_stats (fst (snd (update_statistics person true (self, w)))) in
       len (admitted_people after) = len (admitted_people (current_stats self)) + 1
       /\ forall attr n,
            attribute_counts (current_stats self) !! attr = Some n ->
            exists n', attribute_counts after !! attr = Some n' /\ n <= n' <= n + 1.
Proof.
  intros Hs. split.
  - change (tracked self).
    induction Hs as [api_client strategy | self w scenario _ IH
                     | self w num_steps show_progress i records _ IH
                     | self w num_steps show_progress _ IH].
    + intros attr n L. cbn in L. by rewrite lookup_empty in L.
    + by apply start_game_tracked.
    + by apply step_body_tracked.
    + by apply step_tracked.
  - intros person w.
    destruct (update_statistics_run person true self w) as (stats' & -> & _ & Ea & _ & Eq).
    cbn. rewrite Ea. split.
    + unfold len. rewrite length_app. cbn [length]. lia.
    + intros attr n L. rewrite Eq, L. cbn. eexists. split; [reflexivity|].
      destruct (dict_get _ _ _); lia.
Qed.

End TrackerInvariant.

(* ===================================================================== *)
(** ** Replaying a session *)
(* ===================================================================== *)

Section Framed.
Context {F St : Type} `{Seeded F St}.







End Framed.

Section FramedProcess.
Context {F : Type}.






End FramedProcess.


Section FramedStrategy.
Context {F : Type} `{PyFloat F}.






End FramedStrategy.

Section FramedRunner.
Context {F : Type} `{PyFloat F}.














End FramedRunner.

(* ===================================================================== *)
(** ** A short game, played *)
(* ===================================================================== *)

(** The short game against the default strategy, every draw 0.9:
    [young_only] is admitted by the bootstrap rule, [nobody] is rejected
    by the sub-policy, and [both] is rejected because [young] is
    over-represented; one draw is consumed.  Exact arithmetic and binary64
    agree. *)
Example short_game_decisions :
  decisions (fst (play (F:=Q) (constructed (20 # 100) (2 # 100) (1 # 10))
                       (fun _ => 9 # 10) short_game 3))
  = Ok [true; false; false]
  /\ drawn (snd (snd (play (F:=Q) (constructed (20 # 100) (2 # 100) (1 # 10))
                           (fun _ => 9 # 10) short_game 3)))
     = 1%nat
  /\ decisions (fst (play (F:=float) (constructed (dec 20 100) (dec 2 100) (dec 1 10))
                          (fun _ => dec 9 10) short_game 3))
     = Ok [true; false; false].
Proof. repeat split; vm_compute; reflexivity. Qed.

Lemma counts_at_most_admitted_witness :
  let started :=
    snd (start_game 1 (GameRunner__init__ client (constructed (20 # 100) (2 # 100) (1 # 10)),
                       world_of (fun _ => 9 # 10) short_game)) in
  let self := fst (snd (step 3 true (fst started, snd started))) in
  attribute_counts (current_stats self) !! "young" = Some 1
  /\ 1 <= len (admitted_people (current_stats self)).
Proof.
  intros started self. split; [vm_compute; reflexivity|].
  apply (proj1 (counts_at_most_admitted self
                  (session_step _ _ _ _ (session_start_game _ _ _ (session_new _ _))))
               "young" 1).
  vm_compute. reflexivity.
Defined.


(* ===================================================================== *)
(** * Further properties of the strategy *)
(* ===================================================================== *)

(** ** The tolerance schedule and the fallback target *)

Section ScheduleBounds.
Local Open Scope Q_scope.





End ScheduleBounds.

(** ** The no-attribute sub-policy *)

Section SubPolicyRun.
Context {F : Type} `{PyFloat F}.
Local Open Scope py_scope.

(** What a call of the sub-policy returns and draws, by whether the share
    of empty people exceeds the target by more than 0.02. *)
Lemma sub_policy_run (self : Scenario1Strategy F) (admitted : Z) (stats : Stats)
    (show : bool) (w : World F) :
  let run := _decide_no_attributes_person self admitted stats show w in
  if no_attribute_share stats
     >? _calculate_no_attributes_target_with_statistics self + dec 2 100
  then fst run = Ok false /\ drawn (snd run) = drawn w
  else fst run = Ok (entropy w (drawn w) <? acceptance_rate_of self admitted stats)
       /\ drawn (snd run) = Datatypes.S (drawn w).
Proof.
  unfold _decide_no_attributes_person, acceptance_rate_of, no_attribute_share.
  cbv [mbind StExn_bind mret StExn_ret when print random_random].
  destruct (ltb (add _ (dec 2 100)) _).
  - destruct (show && (admitted mod 50 =? 0)%Z), show; split; reflexivity.
  - destruct (list_nonempty (_constraints self) && list_nonempty (admitted_people stats));
      cbn [andb]; [destruct (existsb _ _)|];
      destruct (show && (admitted mod 50 =? 0)%Z), show; cbn [fst snd drawn entropy];
      match goal with |- context [ltb (entropy w (drawn w)) ?b] =>
        destruct (ltb (entropy w (drawn w)) b) end; split; reflexivity.
Qed.


End SubPolicyRun.

Section SubPolicyRate.
Local Open Scope Q_scope.

Lemma rate_bounds (self : Scenario1Strategy Q) (admitted : Z) (stats : Stats) :
  1 # 4000 <= acceptance_rate_of self admitted stats <= 3 # 10.
Proof.
  unfold acceptance_rate_of. cbv zeta.
  generalize (no_attribute_share (F:=Q) stats)
             (_calculate_no_attributes_target_with_statistics self).
  intros share target.
  destruct (_ && _ && _); unfold py_min;
    cbn [leb ltb add sub mul div of_int dec Q_float]; q_cases; lra.
Qed.

Lemma rate_mono (self : Scenario1Strategy Q) (admitted1 admitted2 : Z) (stats : Stats) :
  inject_Z admitted1 / 1000 <= inject_Z admitted2 / 1000 ->
  acceptance_rate_of self admitted2 stats <= acceptance_rate_of self admitted1 stats.
Proof.
  intros L. unfold acceptance_rate_of. cbv zeta.
  generalize (no_attribute_share (F:=Q) stats)
             (_calculate_no_attributes_target_with_statistics self).
  intros share target.
  cbn [leb ltb add sub mul div of_int dec Q_float].
  set (p1 := inject_Z admitted1 / 1000) in *. set (p2 := inject_Z admitted2 / 1000) in *.
  destruct (_ && _ && _); unfold py_min; cbn [ltb Q_float].
  all: destruct (Qltb_reflect share (target - 0.1)), (Qltb_reflect share (target - 0.03)),
         (Qltb_reflect share target); try lra.
  all: q_cases; lra.
Qed.

(** The decision of the sub-policy below its ceiling, as a proposition. *)
Lemma sub_policy_admits_iff (self : Scenario1Strategy Q) (admitted : Z) (stats : Stats)
    (show : bool) (w : World Q) :
  fst (_decide_no_attributes_person self admitted stats show w) = Ok true
  <-> ~ _calculate_no_attributes_target_with_statistics self + (2 # 100)
        < no_attribute_share stats
      /\ entropy w (drawn w) < acceptance_rate_of self admitted stats.
Proof.
  pose proof (sub_policy_run self admitted stats show w) as R. cbv zeta in R.
  cbn [ltb add dec Q_float] in R.
  destruct (Qltb_reflect (_calculate_no_attributes_target_with_statistics self + 0.02)
                         (no_attribute_share stats)) as [Over|Under].
  - destruct R as [-> _]. split; [discriminate | intros [N _]; contradiction].
  - destruct R as [-> _]. split.
    + intros E. injection E as E. apply Qltb_lt in E. by split.
    + intros [_ L]. f_equal. by apply Qltb_lt.
Qed.

(** X4.  The sub-policy never admits on a draw of 0.3 or more: whatever
    the progress, the tracker and the statistics, the acceptance rate stays
    at or below 0.3. *)
Theorem sub_policy_rate_cap (self : Scenario1Strategy Q) (admitted : Z) (stats : Stats)
    (show : bool) (w : World Q) :
  fst (_decide_no_attributes_person self admitted stats show w) = Ok true ->
  entropy w (drawn w) < 3 # 10.
Proof.
  intros E. apply sub_policy_admits_iff in E as [_ L].
  pose proof (rate_bounds self admitted stats). lra.
Qed.


(** X6.  The sub-policy tightens as the venue fills: with the same
    tracker, statistics and draw, an empty candidate admitted at some
    progress is admitted at every lower progress. *)
Theorem sub_policy_tightens (self : Scenario1Strategy Q) (admitted1 admitted2 : Z)
    (stats : Stats) (show : bool) (w : World Q) :
  inject_Z admitted1 / 1000 <= inject_Z admitted2 / 1000 ->
  fst (_decide_no_attributes_person self admitted2 stats show w) = Ok true ->
  fst (_decide_no_attributes_person self admitted1 stats show w) = Ok true.
Proof.
  intros L E. apply sub_policy_admits_iff in E as [N D].
  apply sub_policy_admits_iff. split; [exact N|].
  pose proof (rate_mono self admitted1 admitted2 stats L). lra.
Qed.

End SubPolicyRate.

Lemma sub_policy_rate_cap_witness :
  (1 # 10 < 3 # 10)%Q.
Proof.
  apply (sub_policy_rate_cap default_strategy 0 fresh_stats true
           (world_of (fun _ => 1 # 10) [])).
  vm_compute. reflexivity.
Defined.


Lemma sub_policy_tightens_witness :
  fst (_decide_no_attributes_person (F:=Q) default_strategy 10 fresh_stats true
                                    (world_of (fun _ => 4 # 100) []))
  = Ok true.
Proof.
  apply (sub_policy_tightens default_strategy 10 400 fresh_stats true
           (world_of (fun _ => 4 # 100) [])); vm_compute; congruence.
Defined.

(** ** The per-quota path *)

Section PerQuotaPath.
Context {F : Type} `{PyFloat F}.
Local Open Scope py_scope.


(** X8.  [decide] hands back the strategy object it was given, except in
    one case: a strategy that holds no constraints takes those of the game
    state.  Tolerances, frequencies and correlations are never touched. *)
Theorem decide_latches_constraints_only (self self' : Scenario1Strategy F)
    (person : Person) (game_state : GameState F) (current_stats : Stats)
    (show_progress : bool) (w : World F) (b : bool) :
  fst (decide self person game_state current_stats show_progress w) = Ok (b, self') ->
  self' = self
  \/ (_constraints self = [] /\ constraints game_state <> []
      /\ self' = set_constraints self (constraints game_state)).
Proof.
  unfold decide.
  destruct (admitted_count game_state >=? 1000)%Z.
  { intros E. injection E as _ <-. by left. }
  destruct (no_attributes (attributes person)).
  { rewrite bind_run.
    destruct (_decide_no_attributes_person _ _ _ _ w) as [[d|e] w']; [|discriminate].
    intros E. injection E as _ <-. by left. }
  destruct (len (admitted_people current_stats) =? 0)%Z.
  { intros E. injection E as _ <-. by left. }
  destruct (_constraints self) as [|c cs] eqn:Ec; cbn [list_nonempty negb].
  - destruct (constraints game_state) as [|g gs] eqn:Eg; cbn [list_nonempty].
    + intros E. injection E as _ <-. by left.
    + rewrite bind_run.
      destruct (decide_with_constraints _ _ _ _ _ w) as [[d|e] w']; [|discriminate].
      intros E. injection E as _ <-. right. by repeat split.
  - rewrite bind_run.
    destruct (decide_with_constraints _ _ _ _ _ w) as [[d|e] w']; [|discriminate].
    intros E. injection E as _ <-. by left.
Qed.

(** Given a game state without constraints, [decide] hands back the
    strategy object it was called on. *)
Lemma decide_strategy_after (self self' : Scenario1Strategy F)
    (person : Person) (game_state : GameState F) (current_stats : Stats)
    (show_progress : bool) (w : World F) (b : bool) :
  constraints game_state = [] ->
  fst (decide self person game_state current_stats show_progress w) = Ok (b, self') ->
  self' = self.
Proof.
  intros Ec. unfold decide. rewrite Ec. cbn [list_nonempty].
  destruct (admitted_count game_state >=? 1000)%Z; [cbn; congruence|].
  destruct (no_attributes (attributes person)).
  { rewrite bind_run.
    destruct (_decide_no_attributes_person _ _ _ _ w) as [[d|e] w']; cbn; congruence. }
  destruct (len (admitted_people current_stats) =? 0)%Z; [cbn; congruence|].
  destruct (negb (list_nonempty (_constraints self))); [cbn; congruence|].
  rewrite bind_run.
  destruct (decide_with_constraints _ _ _ _ _ w) as [[d|e] w']; cbn; congruence.
Qed.

End PerQuotaPath.


Lemma decide_latches_constraints_only_witness :
  constructed (20 # 100) (2 # 100) (1 # 10) = constructed (F:=Q) (20 # 100) (2 # 100) (1 # 10)
  \/ (_constraints (F:=Q) (constructed (20 # 100) (2 # 100) (1 # 10)) = []
      /\ constraints (running (F:=Q) 1 (Some both)) <> []
      /\ constructed (20 # 100) (2 # 100) (1 # 10)
         = set_constraints (constructed (20 # 100) (2 # 100) (1 # 10))
                           (constraints (running (F:=Q) 1 (Some both)))).
Proof.
  apply (decide_latches_constraints_only (constructed (20 # 100) (2 # 100) (1 # 10))
           (constructed (20 # 100) (2 # 100) (1 # 10)) both (running 1 (Some both))
           one_of_both true (world_of (fun _ => 9 # 10) []) true).
  vm_compute. reflexivity.
Defined.

(** ** The loop over the quotas *)

Section QuotaLoop.
Context {F : Type} `{PyFloat F}.
Local Open Scope py_scope.

Lemma writes_ret {A} (show : bool) (a : A) : writes (F:=F) show (mret a) a.
Proof. exists []. split; [done|]. intros w. by rewrite emit_nil. Qed.

Lemma writes_bind {A B} (show : bool) (c : M F A) (k : A -> M F B) (a : A) (b : B) :
  writes show c a -> writes show (k a) b -> writes show (c ≫= k) b.
Proof.
  intros (o1 & Q1 & E1) (o2 & Q2 & E2). exists (o2 ++ o1). split.
  - intros S. by rewrite Q1, Q2.
  - intros w. by rewrite bind_run, E1, E2, emit_emit.
Qed.

Lemma writes_quiet {A} (show : bool) (c : M F A) (a : A) :
  writes false c a -> writes show c a.
Proof. intros (o & Q & E). exists o. split; [intros _; by apply Q | exact E]. Qed.

Lemma writes_print (show b : bool) (p : Printed F) :
  writes show (when (b && show) (print p)) tt.
Proof.
  destruct show; [|rewrite andb_false_r; apply writes_ret].
  destruct b; [|apply writes_ret]. exists [p]. split; [discriminate | reflexivity].
Qed.

Lemma writes_print_when (show : bool) (p : Printed F) :
  writes show (when show (print p)) tt.
Proof. apply (writes_print show true). Qed.

(** The correlation loop prints nothing. *)
Lemma add_correlations_writes (self : Scenario1Strategy F) (attr : string)
    (person_attrs : list string) (bonus : F) (show : bool) :
  exists v, writes show (add_correlations self attr person_attrs bonus) v.
Proof.
  unfold add_correlations.
  revert bonus. induction person_attrs as [|o l IH]; intros bonus; cbn [for_each].
  - eexists. apply writes_ret.
  - destruct (negb (String.eqb o attr)
              && dict_mem (dict_get (_correlations self) attr ∅) o) eqn:G.
    + apply andb_prop in G as [_ G]. apply dict_mem_lookup in G as [v G].
      unfold dict_get in G.
      destruct (_correlations self !! attr) as [row|] eqn:R;
        [|rewrite lookup_empty in G; discriminate].
      destruct (IH (if v >? dec 1 10 then bonus + v else bonus)) as [r W]. exists r.
      eapply writes_bind; [|exact W].
      rewrite (subscript_some _ _ _ R).
      eapply writes_bind; [apply writes_ret|]. cbn beta.
      rewrite (subscript_some _ _ _ G).
      eapply writes_bind; [apply writes_ret|]. cbn beta.
      destruct (ltb (dec 1 10) v); apply writes_ret.
    + destruct (IH bonus) as [r W]. exists r.
      eapply writes_bind; [apply writes_ret | exact W].
Qed.

Lemma correlation_signal_writes (self : Scenario1Strategy F) (person : Person)
    (attr : string) (has show : bool) :
  writes show (correlation_signal self person attr has show) tt.
Proof.
  unfold correlation_signal.
  destruct (has && _); [|apply writes_ret]. destruct (len _ >? 1)%Z; [|apply writes_ret].
  destruct (add_correlations_writes self attr
              (map fst (List.filter (fun av => snd av) (dict_items (attributes person))))
              (of_int 0) show) as [v W].
  eapply writes_bind; [exact W|]. apply writes_print.
Qed.

(** One pass through the loop body returns what [quota_rejects] says. *)
Lemma check_constraint_writes (self : Scenario1Strategy F) (person : Person)
    (stats : Stats) (show : bool) (total remaining : Z) (tol : F) (c : Constraint) :
  writes show (check_constraint self person stats show total remaining tol c)
         (quota_rejects self person stats total remaining tol c).
Proof.
  unfold check_constraint, quota_rejects. cbv zeta.
  destruct (dict_get (attributes person) (attribute c) false); cbn [andb negb orb].
  - destruct (ltb (add _ tol) _); cbn [orb].
    + eapply writes_bind; [apply writes_print_when | apply writes_ret].
    + eapply writes_bind; [apply writes_ret|]. cbn iota.
      eapply writes_bind; [apply correlation_signal_writes | apply writes_ret].
  - destruct (ltb _ (sub _ (dec 8 100))); cbn [andb].
    + destruct (dict_nonempty _ && dict_mem _ _).
      * destruct (ltb _ (mul _ (dec 12 10))).
        -- eapply writes_bind;
             [eapply writes_bind; [apply writes_print_when | apply writes_ret]
             |apply writes_ret].
        -- eapply writes_bind; [apply writes_ret|]. cbn iota.
           eapply writes_bind; [apply correlation_signal_writes | apply writes_ret].
      * destruct (ltb (mul _ (dec 7 10)) _).
        -- eapply writes_bind;
             [eapply writes_bind; [apply writes_print_when | apply writes_ret]
             |apply writes_ret].
        -- eapply writes_bind; [apply writes_ret|]. cbn iota.
           eapply writes_bind; [apply correlation_signal_writes | apply writes_ret].
    + eapply writes_bind; [apply writes_ret|]. cbn iota.
      eapply writes_bind; [apply correlation_signal_writes | apply writes_ret].
Qed.

Lemma check_constraints_writes (self : Scenario1Strategy F) (person : Person)
    (stats : Stats) (show : bool) (total remaining : Z) (tol : F) (cs : list Constraint) :
  writes show (check_constraints self person stats show total remaining tol cs)
         (forallb (fun c => negb (quota_rejects self person stats total remaining tol c)) cs).
Proof.
  induction cs as [|c cs IH]; cbn [check_constraints forallb].
  - apply writes_ret.
  - eapply writes_bind; [apply check_constraint_writes|].
    destruct (quota_rejects self person stats total remaining tol c); cbn [negb andb].
    + apply writes_ret.
    + exact IH.
Qed.

Lemma decide_with_constraints_writes (self : Scenario1Strategy F) (person : Person)
    (stats : Stats) (show : bool) (cs : list Constraint) :
  let total := len (admitted_people stats) in
  writes show (decide_with_constraints self person stats show cs)
         (forallb (fun c => negb (quota_rejects self person stats total (1000 - total)
                                    (_calculate_current_tolerance self total) c)) cs).
Proof.
  intros total. unfold decide_with_constraints. fold total.
  eapply writes_bind; [|apply check_constraints_writes].
  destruct show; [|rewrite andb_false_r; apply writes_ret].
  rewrite andb_true_r. destruct (existsb _ _); [|apply writes_ret].
  cbn [when]. eapply writes_bind.
  - exists [ProgressTolerance (of_int total / dec 1000 1)
                              (_calculate_current_tolerance self total)].
    split; [discriminate | reflexivity].
  - cbn beta. destruct (dict_nonempty _); [|apply writes_ret].
    exists [Frequencies (_relative_frequencies self)]. split; [discriminate | reflexivity].
Qed.

(** [decide] on a person with an attribute: the value, and what is done to
    the process. *)
Lemma decide_attributed (self : Scenario1Strategy F) (person : Person)
    (game_state : GameState F) (stats : Stats) :
  no_attributes (attributes person) = false ->
  exists self',
    forall show,
      writes show (decide self person game_state stats show)
             (attributed_decision self person game_state stats, self').
Proof.
  intros Ha. unfold decide, attributed_decision, quotas_in_force. rewrite Ha.
  destruct (admitted_count game_state >=? 1000)%Z.
  { exists self. intros show. apply writes_ret. }
  destruct (len (admitted_people stats) =? 0)%Z.
  { exists self. intros show. apply writes_ret. }
  destruct (list_nonempty (_constraints self)); cbn [negb].
  - exists self. intros show.
    eapply writes_bind; [apply decide_with_constraints_writes | apply writes_ret].
  - destruct (constraints game_state) as [|g gs] eqn:Eg; cbn [list_nonempty].
    + exists self. intros show. apply writes_ret.
    + rewrite <- Eg. exists (set_constraints self (constraints game_state)). intros show.
      eapply writes_bind; [|apply writes_ret].
      apply (decide_with_constraints_writes
               (set_constraints self (constraints game_state))).
Qed.

Lemma attributed_decision_value (self : Scenario1Strategy F) (person : Person)
    (game_state : GameState F) (stats : Stats) (show : bool) (w : World F) :
  no_attributes (attributes person) = false ->
  decision_of (fst (decide self person game_state stats show w))
  = Ok (attributed_decision self person game_state stats).
Proof.
  intros Ha. destruct (decide_attributed self person game_state stats Ha) as [self' W].
  destruct (W show) as (out & _ & E). by rewrite E.
Qed.

Lemma sub_policy_quiet (self : Scenario1Strategy F) (admitted : Z) (stats : Stats)
    (w : World F) :
  stdout (snd (_decide_no_attributes_person self admitted stats false w)) = stdout w.
Proof.
  unfold _decide_no_attributes_person.
  cbv [mbind StExn_bind mret StExn_ret when print random_random andb].
  destruct (ltb (add _ (dec 2 100)) _); [reflexivity|].
  destruct (list_nonempty (_constraints self)); [|reflexivity].
  destruct (list_nonempty (admitted_people stats)); [|reflexivity].
  destruct (existsb _ _); reflexivity.
Qed.

Lemma forallb_Permutation {A} (f : A -> bool) (l l' : list A) :
  l ≡ₚ l' -> forallb f l = forallb f l'.
Proof.
  induction 1 as [|x l l' _ IH|x y l|l l' l'' _ IH1 _ IH2]; cbn [forallb].
  - reflexivity.
  - by rewrite IH.
  - by destruct (f x), (f y).
  - by rewrite IH1.
Qed.

(** X9.  [show_progress] changes what [decide] prints and nothing else:
    with the flag on or off the call returns the same decision and the same
    strategy object (or raises alike), and with the flag off it prints
    nothing. *)
Theorem show_progress_only_prints (self : Scenario1Strategy F) (person : Person)
    (game_state : GameState F) (current_stats : Stats) (w : World F) :
  fst (decide self person game_state current_stats true w)
  = fst (decide self person game_state current_stats false w)
  /\ stdout (snd (decide self person game_state current_stats false w)) = stdout w.
Proof.
  destruct (no_attributes (attributes person)) eqn:Ha.
  - unfold decide. rewrite Ha.
    destruct (admitted_count game_state >=? 1000)%Z; [by split|].
    rewrite !bind_run.
    pose proof (sub_policy_run self (admitted_count game_state) current_stats true w) as R1.
    pose proof (sub_policy_run self (admitted_count game_state) current_stats false w) as R2.
    pose proof (sub_policy_quiet self (admitted_count game_state) current_stats w) as S.
    cbv zeta in R1, R2.
    destruct (_decide_no_attributes_person self _ current_stats true w) as [r1 w1].
    destruct (_decide_no_attributes_person self _ current_stats false w) as [r2 w2].
    cbn [fst snd] in R1, R2, S.
    destruct (ltb _ _); destruct R1 as [-> _], R2 as [-> _]; by split.
  - destruct (decide_attributed self person game_state current_stats Ha) as [self' W].
    destruct (W true) as (o1 & _ & E1). destruct (W false) as (o2 & Q2 & E2).
    rewrite E1, E2, (Q2 eq_refl). by split.
Qed.

(** X10.  For a candidate with at least one attribute true, the order in
    which the strategy holds its quotas does not matter: [decide] on the
    same quotas in another order returns the same decision. *)
Theorem quota_order_is_irrelevant (self : Scenario1Strategy F) (person : Person)
    (game_state : GameState F) (current_stats : Stats) (show_progress : bool)
    (w : World F) (cs cs' : list Constraint) :
  cs ≡ₚ cs' ->
  (exists attr, attributes person !! attr = Some true) ->
  decision_of (fst (decide (set_constraints self cs) person game_state current_stats
                           show_progress w))
  = decision_of (fst (decide (set_constraints self cs') person game_state current_stats
                             show_progress w)).
Proof.
  intros P Ha. apply has_attribute_spec in Ha.
  rewrite !attributed_decision_value by exact Ha. f_equal.
  unfold attributed_decision, quotas_in_force. cbn [set_constraints _constraints].
  destruct (admitted_count game_state >=? 1000)%Z; [reflexivity|].
  destruct (len (admitted_people current_stats) =? 0)%Z; [reflexivity|].
  destruct cs as [|c cs].
  - apply Permutation_nil_l in P as ->. reflexivity.
  - destruct cs' as [|c' cs']; [by apply Permutation_nil_r in P|].
    cbn [list_nonempty]. by apply forallb_Permutation.
Qed.

End QuotaLoop.

Lemma quota_order_is_irrelevant_witness :
  decision_of (fst (decide (F:=Q) (set_constraints default_strategy quotas) young_only
                           (running 1 (Some young_only)) one_of_both true
                           (world_of (fun _ => 9 # 10) [])))
  = decision_of (fst (decide (F:=Q) (set_constraints default_strategy (rev quotas))
                             young_only (running 1 (Some young_only)) one_of_both true
                             (world_of (fun _ => 9 # 10) []))).
Proof.
  apply (quota_order_is_irrelevant default_strategy young_only
           (running 1 (Some young_only)) one_of_both true (world_of (fun _ => 9 # 10) [])
           quotas (rev quotas)).
  - apply Permutation_rev.
  - exists "young". reflexivity.
Defined.

Section QuotaLoopExact.
Local Open Scope Q_scope.




End QuotaLoopExact.




(* ===================================================================== *)
(** * Further properties of the runner *)
(* ===================================================================== *)

(** Resuming a run at a call whose outcome [E] gives. *)
Ltac run E :=
  lazymatch type of E with
  | ?c = _ =>
    lazymatch goal with
    | |- (match ?t with pair _ _ => _ end) = _ => change t with c; rewrite E
    end
  end.

Ltac pass_prefix E0 Eg Ep Es :=
  unfold step_body; rewrite bind_run; run E0; rewrite bind_run; cbn [get_self];
  rewrite Eg, Ep, Es; change (negb (String.eqb "running" "running")) with false;
  cbv iota; rewrite bind_run.

Section RunnerRun.
Context {F S : Type} `{DecisionStrategy F S}.

Lemma step_body_run (num_steps : Z) (show : bool) (i : Z) (acc : list (PersonRecord F))
    (self : GameRunner F S) (w : World F) (gs : GameState F) (person : Person) :
  game_state self = Some gs ->
  next_person gs = Some person ->
  status gs = "running" ->
  let w0 := if show then w else snd (print (StepOf (i + 1) num_steps) w) in
  match strategy_decide (strategy self) person gs (current_stats self) show w0 with
  | (Raise e, w1) =>
    step_body num_steps show i acc (self, w) = (Raise e, (self, w1))
  | (Ok (d, s1), w1) =>
    exists stats',
      recorded person d (current_stats self) stats'
      /\ let record := record_of person gs d (clock w1 (ticks w1)) in
         let self2 :=
           with_current_stats stats'
             (with_people_history (people_history self ++ [record])
                (with_strategy s1 self)) in
         let w2 :=
           if show
           then snd (print (StepLine (steps_taken stats' + 1) d person) (snd (time_time w1)))
           else snd (time_time w1) in
         match decide_and_next (api self) (game_id gs) (person_index person) (Some d) w2 with
         | (Raise e, w3) =>
           step_body num_steps show i acc (self, w) = (Raise e, (self2, w3))
         | (Ok gs', w3) =>
           match strategy_on_decision_made s1 person d gs' w3 with
           | (Raise e, w4) =>
             step_body num_steps show i acc (self, w)
             = (Raise e, (with_game_state gs' self2, w4))
           | (Ok s2, w4) =>
             let self3 :=
               with_current_stats
                 (with_steps_taken (steps_taken stats' + 1) stats')
                 (with_strategy s2 (with_game_state gs' self2)) in
             step_body num_steps show i acc (self, w)
             = if String.eqb (status gs') "running"
               then (Ok (Continue, acc ++ [record]), (self3, w4))
               else (Ok (Break, acc ++ [record]),
                     (with_game_completed true self3,
                      snd (print (GameCompleted (status gs')) w4)))
           end
         end
  end.
Proof.
  intros Eg Ep Es w0.
  assert (E0 : when (negb show) (io (print (StepOf (i + 1) num_steps))) (self, w)
               = (Ok tt, (self, w0))).
  { unfold w0. destruct show; reflexivity. }
  destruct (strategy_decide (strategy self) person gs (current_stats self) show w0)
    as [[[d s1]|e] w1] eqn:Ed.
  2: { pass_prefix E0 Eg Ep Es. cbn [io]. rewrite Ed. reflexivity. }
  destruct (update_statistics_run person d
              (with_people_history
                 (people_history self ++ [record_of person gs d (clock w1 (ticks w1))])
                 (with_strategy s1 self))
              (snd (time_time w1))) as (stats' & Eu & R).
  exists stats'. split; [exact R|]. intros record self2 w2.
  assert (Ew : when show (io (print (StepLine (steps_taken stats' + 1) d person)))
                    (self2, snd (time_time w1))
               = (Ok tt, (self2, w2))).
  { unfold w2. destruct show; reflexivity. }
  assert (P : step_body num_steps show i acc (self, w)
             = let k gs' :=
                 set_self (with_game_state gs');;
                 self ← get_self;
                 strategy' ← io (strategy_on_decision_made (strategy self) person d gs');
                 set_self (with_strategy strategy');;
                 set_self (fun self =>
                   with_current_stats
                     (with_steps_taken (steps_taken (current_stats self) + 1)
                                       (current_stats self))
                     self);;
                 if negb (String.eqb (status gs') "running") then
                   io (print (GameCompleted (status gs')));;
                   set_self (with_game_completed true);;
                   mret (Break, acc ++ [record])
                 else mret (Continue, acc ++ [record]) in
               (io (decide_and_next (api self) (game_id gs) (person_index person)
                                    (Some d)) ≫= k) (self2, w2)).
  { pass_prefix E0 Eg Ep Es. cbn [io]. rewrite Ed.
    rewrite bind_run. cbn [set_self]. rewrite bind_run. cbn [io time_time].
    rewrite bind_run. cbn [set_self]. rewrite bind_run. run Eu.
    rewrite bind_run. cbn [get_self]. rewrite bind_run. run Ew. reflexivity. }
  rewrite P. clear P. cbv zeta. rewrite bind_run. cbn [io].
  destruct (decide_and_next (api self) (game_id gs) (person_index person) (Some d) w2)
    as [[gs'|e] w3]; [|reflexivity].
  rewrite bind_run. cbn [set_self]. rewrite bind_run. cbn [get_self].
  rewrite bind_run. cbn [io].
  change (strategy (with_game_state gs' self2)) with s1.
  destruct (strategy_on_decision_made s1 person d gs' w3) as [[s2|e] w4]; [|reflexivity].
  rewrite bind_run. cbn [set_self]. rewrite bind_run. cbn [set_self].
  destruct (String.eqb (status gs') "running"); reflexivity.
Qed.

(** A pass that finds the game over, or no candidate. *)
Lemma step_body_over (num_steps : Z) (show : bool) (i : Z) (acc : list (PersonRecord F))
    (self : GameRunner F S) (w : World F) (gs : GameState F) :
  game_state self = Some gs ->
  next_person gs = None \/ status gs <> "running" ->
  let w0 := if show then w else snd (print (StepOf (i + 1) num_steps) w) in
  step_body num_steps show i acc (self, w)
  = (Ok (Break, acc),
     (with_game_completed true self, snd (print (GameEndedAfter i) w0))).
Proof.
  intros Eg Eo w0.
  assert (E0 : when (negb show) (io (print (StepOf (i + 1) num_steps))) (self, w)
               = (Ok tt, (self, w0))).
  { unfold w0. destruct show; reflexivity. }
  unfold step_body. rewrite bind_run. run E0. rewrite bind_run. cbn [get_self].
  rewrite Eg. destruct (next_person gs) as [person|]; [|reflexivity].
  destruct Eo as [Eo|Eo]; [discriminate|].
  destruct (String.eqb_spec (status gs) "running") as [E|_]; [contradiction|].
  reflexivity.
Qed.

(** A pass in a runner that holds no game state. *)
Lemma step_body_no_state (num_steps : Z) (show : bool) (i : Z)
    (acc : list (PersonRecord F)) (self : GameRunner F S) (w : World F) :
  game_state self = None ->
  let w0 := if show then w else snd (print (StepOf (i + 1) num_steps) w) in
  step_body num_steps show i acc (self, w)
  = (Raise (AttributeError "next_person"), (self, w0)).
Proof.
  intros Eg w0.
  assert (E0 : when (negb show) (io (print (StepOf (i + 1) num_steps))) (self, w)
               = (Ok tt, (self, w0))).
  { unfold w0. destruct show; reflexivity. }
  unfold step_body. rewrite bind_run. run E0. rewrite bind_run. cbn [get_self].
  rewrite Eg. reflexivity.
Qed.

Lemma continues_refl (self : GameRunner F S) : continues [] self self.
Proof.
  unfold continues, len. cbn. rewrite !app_nil_r.
  split_and!; try done; try lia. by left.
Qed.

Lemma continues_completed (self : GameRunner F S) :
  continues [] self (with_game_completed true self).
Proof.
  unfold continues, len. cbn. rewrite !app_nil_r.
  split_and!; try done; try lia. by left.
Qed.

Lemma continues_trans (new1 new2 : list (PersonRecord F)) (r1 r2 r3 : GameRunner F S) :
  continues new1 r1 r2 -> continues new2 r2 r3 -> continues (new1 ++ new2) r1 r3.
Proof.
  intros (A1 & B1 & C1 & D1 & E1 & F1 & G1 & H1 & I1 & J1)
         (A2 & B2 & C2 & D2 & E2 & F2 & G2 & H2 & I2 & J2).
  unfold continues. rewrite !List.filter_app, !map_app, !app_assoc.
  split_and!; try congruence.
  - intros attr. by rewrite G2, G1.
  - lia.
  - unfold len in *. rewrite length_app. lia.
  - destruct I2 as [I2|I2]; [|by right]. rewrite I2. exact I1.
  - intros X. apply J2, J1, X.
Qed.

Lemma decide_and_next_run (api_client : BerghainAPI) (gameId : string) (index : Z)
    (accept : option bool) (w : World F) :
  let out := decide_and_next api_client gameId index accept w in
  sent (snd out) = GetDecideAndNext gameId index accept :: sent w
  /\ wire (snd out) = tail (wire w)
  /\ match fst out with
     | Ok gs' => constraints gs' = [] /\ game_id gs' = gameId
     | Raise e => e = HTTPError \/ e = KeyError "status"
     end.
Proof.
  unfold decide_and_next. rewrite bind_run. unfold http_get.
  destruct (wire w) as [|[| |] rest]; cbn; auto.
Qed.

(** What a pass of the loop of [step] leaves. *)
Lemma step_body_continues (num_steps : Z) (show : bool) (i : Z)
    (acc : list (PersonRecord F)) (self : GameRunner F S) (w : World F) :
  let out := step_body num_steps show i acc (self, w) in
  exists new,
    continues new self (fst (snd out))
    /\ (length new <= 1)%nat
    /\ (forall flow records,
          fst out = Ok (flow, records) ->
          records = acc ++ new
          /\ match flow with
             | Continue => length new = 1%nat
             | Break => game_completed (fst (snd out)) = true
             end).
Proof.
  intros out. unfold out. clear out.
  destruct (game_state self) as [gs|] eqn:Eg.
  2: { rewrite (step_body_no_state _ _ _ _ _ _ Eg). exists []. cbn [fst snd length].
       split; [apply continues_refl|]. split; [lia | discriminate]. }
  assert (Over : next_person gs = None \/ status gs <> "running" ->
                 exists new,
                   continues new self (fst (snd (step_body num_steps show i acc (self, w))))
                   /\ (length new <= 1)%nat
                   /\ (forall flow records,
                         fst (step_body num_steps show i acc (self, w)) = Ok (flow, records) ->
                         records = acc ++ new
                         /\ match flow with
                            | Continue => length new = 1%nat
                            | Break =>
                              game_completed
                                (fst (snd (step_body num_steps show i acc (self, w))))
                              = true
                            end)).
  { intros Eo. rewrite (step_body_over _ _ _ _ _ _ _ Eg Eo). exists [].
    cbn [fst snd length]. split; [|split; [lia|]].
    - apply continues_completed.
    - intros flow records E. injection E as <- <-. rewrite app_nil_r. by split. }
  destruct (next_person gs) as [person|] eqn:Ep; [|apply Over; by left].
  destruct (String.eqb_spec (status gs) "running") as [Es|Es]; [|apply Over; by right].
  clear Over. pose proof (step_body_run num_steps show i acc self w gs person Eg Ep Es) as R.
  cbv zeta in R.
  destruct (strategy_decide _ _ _ _ _ _) as [[[d s1]|e] w1].
  2: { rewrite R. exists []. cbn [fst snd length].
       split; [apply continues_refl|]. split; [lia | discriminate]. }
  destruct R as (stats' & (Rs & Rd) & R).
  assert (C : forall st s g c,
             attribute_counts st = attribute_counts stats' ->
             admitted_people st = admitted_people stats' ->
             rejected_people st = rejected_people stats' ->
             (steps_taken st = steps_taken stats'
              \/ steps_taken st = steps_taken stats' + 1)%Z ->
             (g = game_state self \/ exists gs', g = Some gs' /\ constraints gs' = []) ->
             continues [record_of person gs d (clock w1 (ticks w1))] self
               {| api := api self; strategy := s; game_state := g;
                  initial_game_info := initial_game_info self;
                  people_history :=
                    people_history self ++ [record_of person gs d (clock w1 (ticks w1))];
                  current_stats := st;
                  game_started := game_started self;
                  game_completed := c |}).
  { intros st s g c Ec Ea Er Hs Hg. unfold continues, len. cbn. rewrite Ec, Ea, Er.
    destruct d; cbn; destruct Rd as (Ra & Rr & Rc); rewrite ?app_nil_r.
    - split_and!; try done; try lia.
      + intros attr. by rewrite Rc, fmap_is_Some.
      + intros X attr n' L. rewrite Ec, Rc in L. rewrite Ea, Ra.
        destruct (attribute_counts (current_stats self) !! attr) as [n|] eqn:L0; [|done].
        cbn in L. injection L as <-. rewrite (X attr n L0).
        unfold len. rewrite List.filter_app, length_app. cbn [List.filter].
        destruct (dict_get (attributes person) attr false); cbn [length]; lia.
    - split_and!; try done; try lia.
      + intros attr. by rewrite Rc.
      + intros X attr n' L. rewrite Ec, Rc in L. rewrite Ea, Ra. by apply X. }
  exists [record_of person gs d (clock w1 (ticks w1))]. cbn [length].
  pose proof (decide_and_next_run (api self) (game_id gs) (person_index person) (Some d))
    as N.
  match type of R with
  | context [decide_and_next ?a ?g ?p ?o ?v] =>
    specialize (N v); cbv zeta in N; destruct (decide_and_next a g p o v) as [[gs'|e] w3]
  end.
  2: { rewrite R. cbn [fst snd]. split; [|split; [lia | discriminate]].
       apply C; try reflexivity; by left. }
  destruct N as (_ & _ & Nc & _). cbn [fst] in Nc.
  destruct (strategy_on_decision_made s1 person d gs' w3) as [[s2|e] w4].
  2: { rewrite R. cbn [fst snd]. split; [|split; [lia | discriminate]].
       apply C; try reflexivity; [by left | right; by exists gs']. }
  rewrite R. destruct (String.eqb (status gs') "running"); cbn [fst snd].
  - split; [apply C; try reflexivity; [by right | right; by exists gs']|].
    split; [lia|]. intros flow records E. injection E as <- <-. by split.
  - split; [apply C; try reflexivity; [by right | right; by exists gs']|].
    split; [lia|]. intros flow records E. injection E as <- <-. by split.
Qed.

Lemma step_loop_continues (num_steps : Z) (show : bool) (todo : nat) (i : Z)
    (acc : list (PersonRecord F)) (self : GameRunner F S) (w : World F) :
  let out := step_loop num_steps show todo i acc (self, w) in
  exists new,
    continues new self (fst (snd out))
    /\ (length new <= todo)%nat
    /\ (forall records,
          fst out = Ok records ->
          records = acc ++ new
          /\ ((length new < todo)%nat -> game_completed (fst (snd out)) = true)).
Proof.
  revert i acc self w. induction todo as [|todo IH]; intros i acc self w; cbn [step_loop].
  - exists []. cbn [fst snd length]. split; [apply continues_refl|]. split; [lia|].
    intros records E. injection E as <-. rewrite app_nil_r. split; [done | lia].
  - rewrite bind_run.
    destruct (step_body_continues num_steps show i acc self w) as (new1 & C1 & L1 & V1).
    cbv zeta in C1, V1.
    destruct (step_body num_steps show i acc (self, w)) as [[[flow recs]|e] [self1 w1]];
      cbn [fst snd] in C1, V1.
    + destruct (V1 flow recs eq_refl) as [-> V]. destruct flow.
      * destruct (IH (i + 1)%Z (acc ++ new1) self1 w1) as (new2 & C2 & L2 & V2).
        cbv zeta in C2, V2. exists (new1 ++ new2).
        split; [by apply (continues_trans _ _ _ self1)|]. rewrite length_app.
        split; [lia|]. intros records E. destruct (V2 records E) as [-> G].
        rewrite app_assoc. split; [done|]. intros L. apply G. lia.
      * exists new1. cbn [fst snd]. split; [exact C1|]. split; [lia|].
        intros records E. injection E as <-. by split.
    + exists new1. cbn [fst snd]. split; [exact C1|]. split; [lia | discriminate].
Qed.

Lemma step_continues (num_steps : Z) (show : bool) (self : GameRunner F S) (w : World F) :
  let out := step num_steps show (self, w) in
  exists new,
    continues new self (fst (snd out))
    /\ (length new <= Z.to_nat num_steps)%nat
    /\ (forall records,
          fst out = Ok records ->
          records = new
          /\ (game_started self = true -> (length new < Z.to_nat num_steps)%nat ->
              game_completed (fst (snd out)) = true)).
Proof.
  unfold step. rewrite bind_run. cbn [get_self].
  destruct (game_started self) eqn:Es; cbn [negb orb].
  - destruct (game_completed self) eqn:Ec.
    + exists []. cbn [fst snd length]. split; [apply continues_refl|]. split; [lia|].
      intros records E. injection E as <-. by split.
    + destruct (step_loop_continues num_steps show (Z.to_nat num_steps) 0 [] self w)
        as (new & C & L & V).
      exists new. split; [exact C|]. split; [exact L|]. intros records E.
      destruct (V records E) as [-> G]. split; [done|]. intros _. exact G.
  - exists []. cbn [fst snd length]. split; [apply continues_refl|]. split; [lia|].
    intros records E. injection E as <-. split; [done | discriminate].
Qed.

(** What [start_game] does, by the outcomes of the calls it makes. *)
Lemma start_game_run (scenario : Z) (self : GameRunner F S) (w : World F) :
  let cleared := GameRunner__init__ (api self) (strategy self) in
  let w0 := snd (print (StartingNewGame scenario) w) in
  match new_game (api self) scenario w0 with
  | (Raise e, w1) => start_game scenario (self, w) = (Raise e, (cleared, w1))
  | (Ok info, w1) =>
    let counts :=
      fold_left (fun counts constraint => <[attribute constraint := 0]> counts)
                (constraints info) ∅ in
    let informed :=
      with_current_stats (with_attribute_counts counts fresh_stats)
        (with_game_state info (with_initial_game_info info cleared)) in
    match strategy_on_game_start (strategy self) info w1 with
    | (Raise e, w2) => start_game scenario (self, w) = (Raise e, (informed, w2))
    | (Ok strategy', w2) =>
      match decide_and_next (api self) (game_id info) 0 None w2 with
      | (Raise e, w3) =>
        start_game scenario (self, w) = (Raise e, (with_strategy strategy' informed, w3))
      | (Ok first, w3) =>
        start_game scenario (self, w)
        = (Ok first,
           (with_game_started true (with_game_state first (with_strategy strategy' informed)),
            snd (print (GameInfo first 0 counts)
                       (snd (print GameStartedSuccessfully w3)))))
      end
    end
  end.
Proof.
  intros cleared w0.
  assert (E0 : io (print (StartingNewGame scenario)) (self, w) = (Ok tt, (self, w0)))
    by reflexivity.
  assert (P : start_game scenario (self, w)
              = (info ← io (new_game (api self) scenario);
                 set_self (with_initial_game_info info);;
                 set_self (with_game_state info);;
                 set_self (fun self =>
                   with_current_stats
                     (with_attribute_counts
                        (fold_left (fun counts constraint =>
                                      <[attribute constraint := 0]> counts)
                                   (constraints info)
                                   (attribute_counts (current_stats self)))
                        (current_stats self))
                     self);;
                 self ← get_self;
                 strategy' ← io (strategy_on_game_start (strategy self) info);
                 set_self (with_strategy strategy');;
                 first ← io (decide_and_next (api self) (game_id info) 0 None);
                 set_self (with_game_state first);;
                 set_self (with_game_started true);;
                 io (print GameStartedSuccessfully);;
                 display_game_info;;
                 mret first) (cleared, w0)).
  { unfold start_game. rewrite bind_run. run E0.
    rewrite bind_run. cbn [reset set_self]. rewrite bind_run. cbn [get_self].
    reflexivity. }
  rewrite P. clear P E0. rewrite bind_run. cbn [io].
  destruct (new_game (api self) scenario w0) as [[info|e] w1]; [|reflexivity].
  cbv zeta.
  rewrite bind_run. cbn [set_self]. rewrite bind_run. cbn [set_self].
  rewrite bind_run. cbn [set_self]. rewrite bind_run. cbn [get_self].
  rewrite bind_run. cbn [io strategy with_current_stats with_game_state
                           with_initial_game_info cleared GameRunner__init__].
  destruct (strategy_on_game_start (strategy self) info w1) as [[strategy'|e] w2];
    [|reflexivity].
  rewrite bind_run. cbn [set_self]. rewrite bind_run.
  cbn [io api with_current_stats with_game_state with_initial_game_info with_strategy
          cleared GameRunner__init__].
  destruct (decide_and_next (api self) (game_id info) 0 None w2) as [[first|e] w3];
    reflexivity.
Qed.

Lemma zero_counts_keys (quotas : list Constraint) (counts : gmap string Z) (attr : string) :
  is_Some (fold_left (fun counts constraint => <[attribute constraint := 0]> counts)
                     quotas counts !! attr)
  <-> attr ∈ map attribute quotas \/ is_Some (counts !! attr).
Proof.
  revert counts. induction quotas as [|q qs IH]; intros counts; cbn [fold_left map].
  - rewrite elem_of_nil. tauto.
  - rewrite IH, elem_of_cons.
    destruct (base.decide (attribute q = attr)) as [E|N].
    + rewrite E, lookup_insert_eq. split; [|intros _; right; by eexists]. tauto.
    + rewrite lookup_insert_ne by done. split; [tauto|].
      intros [[E|I]|X]; [congruence | tauto | tauto].
Qed.

(** What [start_game] leaves, whether it returns or raises: an empty
    history and tracker, with the quota attributes of the game at 0. *)
Lemma start_game_leaves (scenario : Z) (self : GameRunner F S) (w : World F) :
  let self' := fst (snd (start_game scenario (self, w))) in
  people_history self' = []
  /\ admitted_people (current_stats self') = []
  /\ rejected_people (current_stats self') = []
  /\ steps_taken (current_stats self') = 0
  /\ (forall attr n, attribute_counts (current_stats self') !! attr = Some n -> n = 0)
  /\ keyed self' /\ ready self' /\ api self' = api self.
Proof.
  pose proof (start_game_run scenario self w) as R. cbv zeta in R.
  destruct (new_game (api self) scenario _) as [[info|e] w1].
  2: { rewrite R. cbn. split_and!; try done; intros attr n L;
         by rewrite lookup_empty in L. }
  assert (K : forall attr,
             is_Some (fold_left (fun counts constraint =>
                                   <[attribute constraint := 0]> counts)
                                (constraints info) (∅ : gmap string Z) !! attr)
             <-> attr ∈ map attribute (constraints info)).
  { intros attr. rewrite zero_counts_keys, lookup_empty, is_Some_alt. tauto. }
  assert (Z0 : forall attr n,
             fold_left (fun counts constraint => <[attribute constraint := 0]> counts)
                       (constraints info) (∅ : gmap string Z) !! attr = Some n -> n = 0).
  { apply zero_counts. intros attr n L. by rewrite lookup_empty in L. }
  destruct (strategy_on_game_start (strategy self) info w1) as [[strategy'|e] w2].
  2: { rewrite R. cbn. split_and!; done. }
  pose proof (decide_and_next_run (api self) (game_id info) 0 None w2) as N.
  cbv zeta in N.
  destruct (decide_and_next (api self) (game_id info) 0 None w2) as [[first|e] w3].
  2: { rewrite R. cbn. split_and!; done. }
  destruct N as (_ & _ & Nc & _). cbn [fst] in Nc.
  rewrite R. cbn. split_and!; try done. intros _. by exists first.
Qed.

(** An invariant of the runner objects of a session: it holds of a new
    runner and of what [start_game] leaves, and continuing a runner keeps
    it. *)
Lemma session_invariant (Inv : GameRunner F S -> Prop) :
  (forall api_client strategy, Inv (GameRunner__init__ api_client strategy)) ->
  (forall scenario self w, Inv (fst (snd (start_game scenario (self, w))))) ->
  (forall new self self', Inv self -> continues new self self' -> Inv self') ->
  forall self, session self -> Inv self.
Proof.
  intros I0 I1 I2 self Hs.
  induction Hs as [api_client strategy | self w scenario _ IH
                   | self w num_steps show_progress i records _ IH
                   | self w num_steps show_progress _ IH].
  - apply I0.
  - apply I1.
  - destruct (step_body_continues num_steps show_progress i records self w)
      as (new & C & _). exact (I2 new _ _ IH C).
  - destruct (step_continues num_steps show_progress self w) as (new & C & _).
    exact (I2 new _ _ IH C).
Qed.

(** The three invariants of the tracker, at the start and from a runner
    to one that continues it. *)
Lemma new_runner_exact (api_client : BerghainAPI) (strategy : S) :
  counts_exact (current_stats (GameRunner__init__ (F:=F) api_client strategy)).
Proof. intros attr n L. cbn in L. by rewrite lookup_empty in L. Qed.

Lemma start_game_exact (scenario : Z) (self : GameRunner F S) (w : World F) :
  counts_exact (current_stats (fst (snd (start_game scenario (self, w))))).
Proof.
  destruct (start_game_leaves scenario self w) as (_ & Ea & _ & _ & Z0 & _).
  intros attr n L. cbv zeta in Ea, Z0. rewrite Ea, (Z0 attr n L). reflexivity.
Qed.

Lemma new_runner_mirrors (api_client : BerghainAPI) (strategy : S) :
  mirrors (GameRunner__init__ (F:=F) api_client strategy).
Proof. unfold mirrors, len. cbn. split_and!; done. Qed.

Lemma start_game_mirrors (scenario : Z) (self : GameRunner F S) (w : World F) :
  mirrors (fst (snd (start_game scenario (self, w)))).
Proof.
  destruct (start_game_leaves scenario self w) as (Eh & Ea & Er & Es & _).
  cbv zeta in Eh, Ea, Er, Es.
  unfold mirrors, get_admitted_people, get_rejected_people, get_people_seen, len.
  rewrite Eh, Ea, Er, Es. cbn. split_and!; done.
Qed.

Lemma continues_mirrors (new : list (PersonRecord F)) (self self' : GameRunner F S) :
  mirrors self -> continues new self self' -> mirrors self'.
Proof.
  intros (Ia & Ir & Is) (_ & _ & _ & Ch & Ca & Cr & _ & Cs & _).
  unfold mirrors, get_admitted_people, get_rejected_people, get_people_seen, len in *.
  rewrite Ch, Ca, Cr, !List.filter_app, !map_app, Ia, Ir, length_app.
  split_and!; try done; lia.
Qed.

Lemma new_runner_keyed (api_client : BerghainAPI) (strategy : S) :
  keyed (GameRunner__init__ (F:=F) api_client strategy).
Proof. unfold keyed. cbn. split; [done|]. intros attr. apply lookup_empty. Qed.

Lemma continues_keyed (new : list (PersonRecord F)) (self self' : GameRunner F S) :
  keyed self -> continues new self self' -> keyed self'.
Proof.
  intros K (_ & Ci & Cg & _ & _ & _ & Cc & _). unfold keyed in *.
  rewrite Ci, Cg. destruct (initial_game_info self) as [info|].
  - intros attr. by rewrite Cc.
  - destruct K as [K0 K1]. split; [done|]. intros attr.
    apply eq_None_not_Some. rewrite Cc, K1. by intros [? ?].
Qed.

(** X14.  The tracker is exact.  In every runner object a program can
    hold, each count the tracker holds for an attribute is the number of
    admitted people, as the tracker lists them, who have that attribute. *)
Theorem tracker_counts_are_exact (self : GameRunner F S) :
  session self ->
  forall attr n,
    attribute_counts (current_stats self) !! attr = Some n ->
    n = len (List.filter (fun attributes => dict_get attributes attr false)
                         (admitted_people (current_stats self))).
Proof.
  intros Hs. change (counts_exact (current_stats self)). revert self Hs.
  apply session_invariant.
  - apply new_runner_exact.
  - apply start_game_exact.
  - intros new self self' I C. by apply C.
Qed.

(** X15.  The tracker and the history tell the same story.  In every
    runner object a program can hold, the attributes of the records
    [get_admitted_people] returns are, in order, the admitted people of the
    tracker, those of [get_rejected_people] the rejected people, and the
    steps counted are at most the people [get_people_seen] returns (fewer
    when a decision was recorded and its sending failed). *)
Theorem tracker_mirrors_history (self : GameRunner F S) :
  session self ->
  map rec_attributes (get_admitted_people self) = admitted_people (current_stats self)
  /\ map rec_attributes (get_rejected_people self) = rejected_people (current_stats self)
  /\ (0 <= steps_taken (current_stats self) <= len (get_people_seen self))%Z.
Proof.
  intros Hs. change (mirrors self). revert self Hs. apply session_invariant.
  - apply new_runner_mirrors.
  - apply start_game_mirrors.
  - apply continues_mirrors.
Qed.

(** X16.  In a started game, the records a call of [step] returns are
    exactly those it appended to the history, at most [num_steps] of them;
    and when it returns fewer than [num_steps], the game is marked
    completed. *)
Theorem step_returns_what_it_adds (num_steps : Z) (show_progress : bool)
    (self : GameRunner F S) (w : World F) (records : list (PersonRecord F)) :
  let out := step num_steps show_progress (self, w) in
  game_started self = true ->
  fst out = Ok records ->
  get_people_seen (fst (snd out)) = get_people_seen self ++ records
  /\ (length records <= Z.to_nat num_steps)%nat
  /\ ((length records < Z.to_nat num_steps)%nat -> game_completed (fst (snd out)) = true).
Proof.
  intros out Hs E.
  destruct (step_continues num_steps show_progress self w) as (new & C & L & V).
  destruct (V records E) as [-> G]. destruct C as (_ & _ & _ & Ch & _).
  split; [exact Ch|]. split; [exact L|]. intros X. by apply G.
Qed.

(** X17.  In a started session the tracker holds a count for each quota
    attribute of the game, as [start_game] received the quotas, and for no
    other attribute: admissions never add a key. *)
Theorem tracker_counts_the_quota_attributes (self : GameRunner F S) :
  session self ->
  game_started self = true ->
  exists info,
    initial_game_info self = Some info
    /\ forall attr,
         is_Some (attribute_counts (current_stats self) !! attr)
         <-> attr ∈ map attribute (constraints info).
Proof.
  intros Hs. assert (K : keyed self).
  { revert self Hs. apply session_invariant.
    - apply new_runner_keyed.
    - intros scenario self w. apply start_game_leaves.
    - apply continues_keyed. }
  intros G. unfold keyed in K. destruct (initial_game_info self) as [info|].
  - by exists info.
  - destruct K as [K _]. congruence.
Qed.

(** X18.  [start_game] with a scenario other than 1, 2 and 3 raises
    [ValueError] before anything is sent, but not before the runner is
    reset: the history, the tracker and the game of the runner are gone,
    only the client and the strategy are kept. *)
Theorem failed_start_clears_the_runner (scenario : Z) (self : GameRunner F S)
    (w : World F) :
  scenario ∉ [1; 2; 3] ->
  let out := start_game scenario (self, w) in
  fst out = Raise (ValueError "Scenario must be 1, 2, or 3")
  /\ fst (snd out) = GameRunner__init__ (api self) (strategy self)
  /\ sent (snd (snd out)) = sent w
  /\ wire (snd (snd out)) = wire w.
Proof.
  intros N. pose proof (start_game_run scenario self w) as R. cbv zeta in R.
  rewrite (new_game_bad_scenario _ _ _ N) in R. cbv zeta. rewrite R. by split_and!.
Qed.

(** X19.  When [start_game] returns, the scenario was 1, 2 or 3, the
    runner holds the returned state and is started and not completed, the
    history and the two lists of the tracker are empty, no step is counted,
    and the tracker holds 0 for exactly the quota attributes of the game;
    whatever game the runner held before is forgotten. *)
Theorem started_game_is_fresh (scenario : Z) (self : GameRunner F S) (w : World F)
    (first : GameState F) :
  let out := start_game scenario (self, w) in
  let self' := fst (snd out) in
  fst out = Ok first ->
  scenario ∈ [1; 2; 3]
  /\ api self' = api self
  /\ game_started self' = true /\ game_completed self' = false
  /\ game_state self' = Some first
  /\ get_people_seen self' = []
  /\ admitted_people (current_stats self') = []
  /\ rejected_people (current_stats self') = []
  /\ steps_taken (current_stats self') = 0
  /\ exists info,
       initial_game_info self' = Some info
       /\ game_id first = game_id info
       /\ forall attr,
            attribute_counts (current_stats self') !! attr
            = if bool_decide (attr ∈ map attribute (constraints info)) then Some 0
              else None.
Proof.
  intros out self'. unfold self', out. clear self' out.
  pose proof (start_game_run scenario self w) as R. cbv zeta in R.
  destruct (base.decide (scenario ∈ [1; 2; 3])) as [I|N].
  2: { rewrite (new_game_bad_scenario _ _ _ N) in R. rewrite R. discriminate. }
  destruct (new_game (api self) scenario _) as [[info|e] w1];
    [|rewrite R; discriminate].
  destruct (strategy_on_game_start (strategy self) info w1) as [[strategy'|e] w2];
    [|rewrite R; discriminate].
  pose proof (decide_and_next_run (api self) (game_id info) 0 None w2) as D.
  cbv zeta in D.
  destruct (decide_and_next (api self) (game_id info) 0 None w2) as [[first'|e] w3];
    [|rewrite R; discriminate].
  destruct D as (_ & _ & _ & Di). cbn [fst] in Di.
  rewrite R. cbn [fst snd]. intros E. injection E as <-.
  split_and!; try done. exists info. split; [done|]. split; [done|]. intros attr. cbn.
  pose proof (zero_counts_keys (constraints info) ∅ attr) as K.
  pose proof (zero_counts (constraints info) ∅) as Z0.
  destruct (fold_left _ _ _ !! attr) as [n|] eqn:L.
  - rewrite bool_decide_eq_true_2.
    + f_equal. apply (Z0 ltac:(intros a m X; by rewrite lookup_empty in X) attr n L).
    + destruct (proj1 K ltac:(by eexists)) as [X|X]; [done|].
      rewrite lookup_empty in X. by destruct X.
  - rewrite bool_decide_eq_false_2; [done|]. intros X.
    destruct (proj2 K (or_introl X)) as [n Y]. congruence.
Qed.

Lemma session_ready (self : GameRunner F S) : session self -> ready self.
Proof.
  revert self. apply session_invariant.
  - intros api_client strategy G. discriminate.
  - intros scenario self w. apply start_game_leaves.
  - intros new self self' R (_ & _ & Cg & _ & _ & _ & _ & _ & Cs & _) G.
    rewrite Cg in G. destruct Cs as [Cs|Cs]; [rewrite Cs; by apply R | exact Cs].
Qed.

(** The invariants of a session, together. *)
Lemma session_tracker (self : GameRunner F S) :
  session self ->
  counts_exact (current_stats self) /\ mirrors self /\ keyed self /\ ready self.
Proof.
  intros Hs. split_and!.
  - revert self Hs. apply session_invariant.
    + apply new_runner_exact.
    + apply start_game_exact.
    + intros new self self' I C. by apply C.
  - revert self Hs. apply session_invariant.
    + apply new_runner_mirrors.
    + apply start_game_mirrors.
    + apply continues_mirrors.
  - revert self Hs. apply session_invariant.
    + apply new_runner_keyed.
    + intros scenario self w. apply start_game_leaves.
    + apply continues_keyed.
  - by apply session_ready.
Qed.

(** X23.  The summary of a game adds up and agrees with the tracker.  In
    every runner object a program can hold, the summary that
    [get_game_summary] returns counts as admitted and rejected, from the
    history, as many people as the tracker lists; the two counts add up to
    the people seen, and the steps taken are at most the people seen. *)
Theorem summary_agrees_with_tracker (get_name : S -> string) (self : GameRunner F S)
    (summary : GameSummary F) :
  session self ->
  get_game_summary get_name self = Some summary ->
  summary_admitted_count summary = len (admitted_people (current_stats self))
  /\ summary_rejected_count summary = len (rejected_people (current_stats self))
  /\ summary_admitted_count summary + summary_rejected_count summary
     = summary_total_seen summary
  /\ 0 <= summary_steps_taken summary <= summary_total_seen summary.
Proof.
  intros Hs E. destruct (session_tracker self Hs) as (_ & (Ma & Mr & Ms) & _).
  unfold get_game_summary in E. destruct (game_state self) as [gs|]; [|discriminate].
  injection E as <-. cbn. unfold len in *. rewrite <- Ma, <- Mr, !length_map.
  split_and!; try done; try (unfold get_people_seen in Ms; lia).
  unfold get_admitted_people, get_rejected_people.
  induction (people_history self) as [|r l IH]; [done|].
  cbn [List.filter length]. destruct (decision r); cbn [negb length]; lia.
Qed.

(** X24.  The summary of a started game reports the quotas truthfully.  In
    every runner object a program can hold whose game is started,
    [get_game_summary] returns a summary, not the empty dictionary; it
    lists one report per quota of the game, in the order of the quotas;
    the count under [actual] is the number of admitted people, as the
    tracker lists them, who have the attribute (the default 0 of
    [.get(attribute, 0)] never stands in for a missing count); and the
    quota is reported as satisfied exactly when that number reaches its
    minimum. *)
Theorem summary_reports_quotas (get_name : S -> string) (self : GameRunner F S) :
  session self ->
  game_started self = true ->
  exists summary info,
    get_game_summary get_name self = Some summary
    /\ initial_game_info self = Some info
    /\ map (fun report => (report_attribute report, required report))
           (summary_constraints summary)
       = map (fun c => (attribute c, min_count c)) (constraints info)
    /\ forall report,
         In report (summary_constraints summary) ->
         actual report
         = len (List.filter
                  (fun attributes => dict_get attributes (report_attribute report) false)
                  (admitted_people (current_stats self)))
         /\ (satisfied report = true <-> required report <= actual report).
Proof.
  intros Hs G. destruct (session_tracker self Hs) as (X & _ & K & R).
  destruct (R G) as (gs & Eg & _). unfold keyed in K. unfold get_game_summary.
  rewrite Eg. destruct (initial_game_info self) as [info|]; [|destruct K; congruence].
  eexists _, info. split; [reflexivity|]. split; [reflexivity|]. cbn.
  split; [by rewrite map_map|]. intros report I.
  apply in_map_iff in I as (c & <- & I). cbn.
  assert (L : is_Some (attribute_counts (current_stats self) !! attribute c)).
  { apply K. apply list_elem_of_fmap. exists c. split; [done|].
    by apply list_elem_of_In. }
  destruct L as [n L].
  assert (D : dict_get (attribute_counts (current_stats self)) (attribute c) 0 = n).
  { unfold dict_get. by rewrite L. }
  rewrite !D. split; [by apply X | apply Z.geb_le].
Qed.

End RunnerRun.

Section Scenario1Session.
Context {F : Type} `{PyFloat F}.
Local Open Scope py_scope.

(** The sub-policy returns, and leaves the connection to the service
    alone. *)
Lemma sub_policy_offline (self : Scenario1Strategy F) (admitted : Z) (stats : Stats)
    (show : bool) (w : World F) :
  exists b w',
    _decide_no_attributes_person self admitted stats show w = (Ok b, w')
    /\ wire w' = wire w /\ sent w' = sent w.
Proof.
  unfold _decide_no_attributes_person.
  cbv [mbind StExn_bind mret StExn_ret when print random_random].
  destruct (ltb (add _ (dec 2 100)) _).
  - destruct (show && (admitted mod 50 =? 0)%Z), show; by eexists _, _.
  - destruct (list_nonempty (_constraints self) && list_nonempty (admitted_people stats));
      cbn [andb]; [destruct (existsb _ _)|];
      destruct (show && (admitted mod 50 =? 0)%Z), show; cbn [fst snd drawn entropy];
      match goal with |- context [ltb (entropy w (drawn w)) ?b] =>
        destruct (ltb (entropy w (drawn w)) b) end; by eexists _, _.
Qed.

(** [decide] returns, and leaves the connection to the service alone; it
    hands back the strategy it was given when the game state carries no
    constraints. *)
Lemma decide_offline (self : Scenario1Strategy F) (person : Person) (gs : GameState F)
    (stats : Stats) (show : bool) (w : World F) :
  exists b self' w',
    decide self person gs stats show w = (Ok (b, self'), w')
    /\ wire w' = wire w /\ sent w' = sent w
    /\ (constraints gs = [] -> self' = self).
Proof.
  assert (P : exists b self' w',
             decide self person gs stats show w = (Ok (b, self'), w')
             /\ wire w' = wire w /\ sent w' = sent w).
  { destruct (no_attributes (attributes person)) eqn:Ha.
    - unfold decide. rewrite Ha.
      destruct (admitted_count gs >=? 1000)%Z; [by eexists _, _, _|].
      rewrite bind_run.
      destruct (sub_policy_offline self (admitted_count gs) stats show w)
        as (b & w' & -> & Ew & Es).
      by exists b, self, w'.
    - destruct (decide_attributed self person gs stats Ha) as [self' W].
      destruct (W show) as (out & _ & E). rewrite E. by eexists _, _, _. }
  destruct P as (b & self' & w' & E & Ew & Es). exists b, self', w'.
  split_and!; try done. intros Ec.
  apply (decide_strategy_after self self' person gs stats show w b Ec). by rewrite E.
Qed.

(** A pass of the loop of [step] with the strategy of scenario 1, in a
    runner that holds the game state [gs]. *)
Lemma scenario1_pass (num_steps : Z) (show : bool) (i : Z)
    (acc : list (PersonRecord F)) (self : GameRunner F (Scenario1Strategy F))
    (w : World F) (gs : GameState F) :
  game_state self = Some gs ->
  let out := step_body num_steps show i acc (self, w) in
  (constraints gs = [] -> strategy (fst (snd out)) = strategy self)
  /\ (exists gs',
        game_state (fst (snd out)) = Some gs' /\ game_id gs' = game_id gs
        /\ (constraints gs = [] -> constraints gs' = []))
  /\ match fst out with
     | Ok (flow, records) =>
       exists new,
         records = acc ++ new
         /\ sent (snd (snd out)) = rev (map (push_of (game_id gs)) new) ++ sent w
     | Raise e => e = HTTPError \/ e = KeyError "status"
     end.
Proof.
  intros Eg out. unfold out. clear out.
  assert (S0 : sent (if show then w else snd (print (StepOf (i + 1) num_steps) w))
               = sent w) by (by destruct show).
  assert (Over : next_person gs = None \/ status gs <> "running" ->
                 let out := step_body num_steps show i acc (self, w) in
                 (constraints gs = [] -> strategy (fst (snd out)) = strategy self)
                 /\ (exists gs',
                       game_state (fst (snd out)) = Some gs' /\ game_id gs' = game_id gs
                       /\ (constraints gs = [] -> constraints gs' = []))
                 /\ match fst out with
                    | Ok (flow, records) =>
                      exists new,
                        records = acc ++ new
                        /\ sent (snd (snd out))
                           = rev (map (push_of (game_id gs)) new) ++ sent w
                    | Raise e => e = HTTPError \/ e = KeyError "status"
                    end).
  { intros Eo. cbv zeta. rewrite (step_body_over _ _ _ _ _ _ _ Eg Eo). cbn [fst snd].
    split; [done|]. split; [by exists gs|]. exists []. rewrite app_nil_r.
    split; [done|]. cbn. exact S0. }
  destruct (next_person gs) as [person|] eqn:Ep; [|apply Over; by left].
  destruct (String.eqb_spec (status gs) "running") as [Es|Es]; [|apply Over; by right].
  clear Over. pose proof (step_body_run num_steps show i acc self w gs person Eg Ep Es) as R.
  cbv zeta in R. cbn [strategy_decide strategy_on_decision_made Scenario1_strategy] in R.
  destruct (decide_offline (strategy self) person gs (current_stats self) show
              (if show then w else snd (print (StepOf (i + 1) num_steps) w)))
    as (d & s1 & w1 & Ed & Ew & Esent & Ek).
  rewrite Ed in R. destruct R as (stats' & _ & R).
  pose proof (decide_and_next_run (F:=F) (api self) (game_id gs) (person_index person) (Some d))
    as N.
  match type of R with
  | context [decide_and_next ?a ?g ?p ?o ?v] =>
    specialize (N v); cbv zeta in N;
    assert (S2 : sent v = sent w) by (destruct show; cbn; congruence);
    destruct (decide_and_next a g p o v) as [[gs'|e] w3]
  end.
  - destruct N as (Ns & _ & Nc & Ni). cbn [fst snd] in Ns, Nc, Ni.
    cbn [mret StExn_ret] in R.
    assert (P : (constraints gs = [] -> s1 = strategy self)
                /\ (exists gs'0,
                      Some gs' = Some gs'0 /\ game_id gs'0 = game_id gs
                      /\ (constraints gs = [] -> constraints gs'0 = []))
                /\ sent w3
                   = rev (map (push_of (game_id gs))
                              [record_of person gs d (clock w1 (ticks w1))]) ++ sent w).
    { split; [exact Ek|]. split; [by exists gs'|]. rewrite Ns, S2. reflexivity. }
    destruct P as (P1 & P2 & P3).
    rewrite R. destruct (String.eqb (status gs') "running"); cbn [fst snd].
    + split; [exact P1|]. split; [exact P2|]. eexists. split; [reflexivity | exact P3].
    + split; [exact P1|]. split; [exact P2|]. eexists. split; [reflexivity | exact P3].
  - destruct N as (_ & _ & N). cbn [fst] in N. rewrite R. cbn [fst snd].
    split; [exact Ek|]. split; [by exists gs | exact N].
Qed.

Lemma scenario1_loop (num_steps : Z) (show : bool) (todo : nat) (i : Z)
    (acc : list (PersonRecord F)) (self : GameRunner F (Scenario1Strategy F))
    (w : World F) (gs : GameState F) :
  game_state self = Some gs ->
  let out := step_loop num_steps show todo i acc (self, w) in
  (constraints gs = [] -> strategy (fst (snd out)) = strategy self)
  /\ match fst out with
     | Ok records =>
       exists new,
         records = acc ++ new
         /\ sent (snd (snd out)) = rev (map (push_of (game_id gs)) new) ++ sent w
     | Raise e => e = HTTPError \/ e = KeyError "status"
     end.
Proof.
  revert i acc self w gs. induction todo as [|todo IH]; intros i acc self w gs Eg;
    cbn [step_loop].
  - cbn. split; [done|]. exists []. by rewrite app_nil_r.
  - cbv zeta. rewrite bind_run.
    pose proof (scenario1_pass num_steps show i acc self w gs Eg) as P. cbv zeta in P.
    destruct (step_body num_steps show i acc (self, w)) as [[[flow recs]|e] [self1 w1]];
      cbn [fst snd] in P.
    + destruct P as (P1 & (gs1 & Eg1 & Ei & Ec) & (new1 & -> & Ps)). destruct flow.
      * pose proof (IH (i + 1)%Z (acc ++ new1) self1 w1 gs1 Eg1) as Q. cbv zeta in Q.
        destruct (step_loop num_steps show todo (i + 1) (acc ++ new1) (self1, w1))
          as [[recs|e] [self2 w2]]; cbn [fst snd] in Q |- *.
        -- destruct Q as (Q1 & (new2 & -> & Qs)). split.
           ++ intros X. rewrite Q1, P1; auto.
           ++ exists (new1 ++ new2). rewrite app_assoc. split; [done|].
              rewrite Qs, Ps, Ei, map_app, rev_app_distr, app_assoc. reflexivity.
        -- destruct Q as (Q1 & Q). split; [|exact Q].
           intros X. rewrite Q1, P1; auto.
      * cbn [fst snd]. split; [exact P1|]. by exists new1.
    + cbn [fst snd]. destruct P as (P1 & _ & P). by split.
Qed.

(** X20.  With the strategy of scenario 1, [step] never changes the
    strategy object of a session: the constraints are taken at
    [start_game], and the states that [decide_and_next] returns carry
    none for [decide] to take. *)
Theorem step_keeps_the_strategy (num_steps : Z) (show_progress : bool)
    (self : GameRunner F (Scenario1Strategy F)) (w : World F) :
  session self ->
  strategy (fst (snd (step num_steps show_progress (self, w)))) = strategy self.
Proof.
  intros Hs. apply session_ready in Hs. unfold step. rewrite bind_run. cbn [get_self].
  destruct (game_started self) eqn:G; cbn [negb orb]; [|reflexivity].
  destruct (game_completed self); [reflexivity|].
  destruct (Hs G) as (gs & Eg & Ec).
  by apply (scenario1_loop num_steps show_progress (Z.to_nat num_steps) 0 [] self w gs Eg).
Qed.

(** X21.  With the strategy of scenario 1, a call of [step] in a session
    fails only when the service does: it raises nothing but the [HTTPError]
    of a failed request and the [KeyError] of a reply without a status;
    deciding, recording and counting never raise. *)
Theorem step_fails_only_with_the_service (num_steps : Z) (show_progress : bool)
    (self : GameRunner F (Scenario1Strategy F)) (w : World F) (e : Exn) :
  session self ->
  fst (step num_steps show_progress (self, w)) = Raise e ->
  e = HTTPError \/ e = KeyError "status".
Proof.
  intros Hs. apply session_ready in Hs. unfold step. rewrite bind_run. cbn [get_self].
  destruct (game_started self) eqn:G; cbn [negb orb]; [|discriminate].
  destruct (game_completed self); [discriminate|].
  destruct (Hs G) as (gs & Eg & Ec).
  pose proof (scenario1_loop num_steps show_progress (Z.to_nat num_steps) 0 [] self w gs Eg)
    as [_ L].
  intros E. rewrite E in L. exact L.
Qed.

(** [on_game_start] returns the strategy with the constraints and the
    statistics of the game state, and only prints. *)
Lemma on_game_start_run (self : Scenario1Strategy F) (gs : GameState F) :
  exists out,
    forall w,
      on_game_start self gs w
      = (Ok (set_statistics (set_constraints self (constraints gs))
                            (attribute_statistics gs)),
         emit out w).
Proof.
  unfold on_game_start. cbv zeta.
  destruct (list_nonempty (_constraints
              (set_statistics (set_constraints self (constraints gs))
                              (attribute_statistics gs)))).
  - eexists [_; _]. intros w. reflexivity.
  - eexists [_]. intros w. reflexivity.
Qed.

Lemma new_game_run (api_client : BerghainAPI) (scenario : Z) (w w' : World F)
    (info : GameState F) :
  new_game api_client scenario w = (Ok info, w') ->
  sent w' = GetNewGame scenario (player_id api_client) :: sent w.
Proof.
  unfold new_game. destruct (negb _); [discriminate|]. rewrite bind_run.
  unfold http_get. destruct (wire w) as [|[| |] rest]; cbn; intros E; by inversion E.
Qed.

(** X25.  With the strategy of scenario 1, when [start_game] returns, the
    strategy of the runner holds the constraints, the frequencies and the
    correlations of the game the service created, and the tolerances it had
    before: nothing a previous game loaded into it is left.  Two requests
    have been sent, for the new game and for its first person. *)
Theorem start_game_reloads_the_strategy (scenario : Z)
    (self : GameRunner F (Scenario1Strategy F)) (w : World F) (first : GameState F) :
  let out := start_game scenario (self, w) in
  fst out = Ok first ->
  exists info,
    initial_game_info (fst (snd out)) = Some info
    /\ strategy (fst (snd out))
       = loaded (initial_tolerance (strategy self)) (final_tolerance (strategy self))
                (strictness_start (strategy self)) (constraints info)
                (relative_frequencies (attribute_statistics info))
                (correlations (attribute_statistics info))
    /\ sent (snd (snd out))
       = [GetDecideAndNext (game_id info) 0 None;
          GetNewGame scenario (player_id (api self))] ++ sent w.
Proof.
  intros out. unfold out. clear out.
  pose proof (start_game_run scenario self w) as R. cbv zeta in R.
  destruct (new_game (api self) scenario _) as [[info|e] w1] eqn:En;
    [|rewrite R; discriminate].
  apply new_game_run in En.
  cbn [strategy_on_game_start Scenario1_strategy] in R.
  destruct (on_game_start_run (strategy self) info) as [o O]. rewrite O in R.
  pose proof (decide_and_next_run (F:=F) (api self) (game_id info) 0 None (emit o w1)) as D.
  cbv zeta in D.
  destruct (decide_and_next (api self) (game_id info) 0 None (emit o w1))
    as [[first'|e] w3]; [|rewrite R; discriminate].
  destruct D as (Ds & _). cbn [snd] in Ds.
  rewrite R. cbn [fst snd]. intros _. exists info. split; [reflexivity|]. split.
  - cbn. unfold loaded. by destruct (attribute_statistics info).
  - cbn. rewrite Ds. cbn. rewrite En. reflexivity.
Qed.

(** X22.  With the strategy of scenario 1, when [step] returns, the
    requests it has sent are the decisions of the records it returns, one
    request per record, in order, each with the index of the person and the
    game id of the state the runner held; nothing else is sent. *)
Theorem step_pushes_each_record (num_steps : Z) (show_progress : bool)
    (self : GameRunner F (Scenario1Strategy F)) (w : World F) (gs : GameState F)
    (records : list (PersonRecord F)) :
  let out := step num_steps show_progress (self, w) in
  game_state self = Some gs ->
  fst out = Ok records ->
  sent (snd (snd out)) = rev (map (push_of (game_id gs)) records) ++ sent w.
Proof.
  intros out Eg. unfold out, step. rewrite bind_run. cbn [get_self].
  destruct (negb (game_started self) || game_completed self).
  - cbn. intros E. injection E as <-. reflexivity.
  - pose proof (scenario1_loop num_steps show_progress (Z.to_nat num_steps) 0 [] self w gs
                  Eg) as [_ L].
    intros E. rewrite E in L. destruct L as (new & -> & L). exact L.
Qed.

End Scenario1Session.

(** ** The properties of the runner on a short game *)

Lemma tracker_counts_are_exact_witness :
  let started :=
    snd (start_game 1 (GameRunner__init__ client (constructed (20 # 100) (2 # 100) (1 # 10)),
                       world_of (fun _ => 9 # 10) short_game)) in
  let self := fst (snd (step 3 true (fst started, snd started))) in
  attribute_counts (current_stats self) !! "young" = Some 1
  /\ 1 = len (List.filter (fun attributes => dict_get attributes "young" false)
                          (admitted_people (current_stats self))).
Proof.
  intros started self. split; [vm_compute; reflexivity|].
  apply (tracker_counts_are_exact self
           (session_step _ _ _ _ (session_start_game _ _ _ (session_new _ _)))
           "young" 1).
  vm_compute. reflexivity.
Defined.

Lemma tracker_mirrors_history_witness :
  let started :=
    snd (start_game 1 (GameRunner__init__ client (constructed (20 # 100) (2 # 100) (1 # 10)),
                       world_of (fun _ => 9 # 10) short_game)) in
  let self := fst (snd (step 3 true (fst started, snd started))) in
  map rec_attributes (get_admitted_people self) = admitted_people (current_stats self)
  /\ map rec_attributes (get_rejected_people self) = rejected_people (current_stats self)
  /\ 0 <= steps_taken (current_stats self) <= len (get_people_seen self).
Proof.
  intros started self.
  apply (tracker_mirrors_history self
           (session_step _ _ _ _ (session_start_game _ _ _ (session_new _ _)))).
Defined.

Lemma step_returns_what_it_adds_witness :
  let started :=
    snd (start_game 1 (GameRunner__init__ client (constructed (20 # 100) (2 # 100) (1 # 10)),
                       world_of (fun _ => 9 # 10) short_game)) in
  let out := step 5 true (fst started, snd started) in
  let records := match fst out with Ok records => records | Raise _ => [] end in
  get_people_seen (fst (snd out)) = get_people_seen (fst started) ++ records
  /\ (length records <= Z.to_nat 5)%nat
  /\ ((length records < Z.to_nat 5)%nat -> game_completed (fst (snd out)) = true).
Proof.
  intros started out records.
  apply (step_returns_what_it_adds 5 true (fst started) (snd started) records).
  - vm_compute. reflexivity.
  - vm_compute. reflexivity.
Defined.

Lemma tracker_counts_the_quota_attributes_witness :
  let started :=
    snd (start_game 1 (GameRunner__init__ client (constructed (20 # 100) (2 # 100) (1 # 10)),
                       world_of (fun _ => 9 # 10) short_game)) in
  let self := fst (snd (step 3 true (fst started, snd started))) in
  exists info,
    initial_game_info self = Some info
    /\ forall attr,
         is_Some (attribute_counts (current_stats self) !! attr)
         <-> attr ∈ map attribute (constraints info).
Proof.
  intros started self.
  apply (tracker_counts_the_quota_attributes self
           (session_step _ _ _ _ (session_start_game _ _ _ (session_new _ _)))).
  vm_compute. reflexivity.
Defined.

Lemma failed_start_clears_the_runner_witness :
  let started :=
    snd (start_game 1 (GameRunner__init__ client (constructed (20 # 100) (2 # 100) (1 # 10)),
                       world_of (fun _ => 9 # 10) short_game)) in
  let self := fst (snd (step 3 true (fst started, snd started))) in
  let w := snd (snd (step 3 true (fst started, snd started))) in
  let out := start_game 7 (self, w) in
  fst out = Raise (ValueError "Scenario must be 1, 2, or 3")
  /\ fst (snd out) = GameRunner__init__ (api self) (strategy self)
  /\ sent (snd (snd out)) = sent w
  /\ wire (snd (snd out)) = wire w.
Proof.
  intros started self w.
  apply (failed_start_clears_the_runner 7 self w).
  intros X. repeat (apply elem_of_cons in X as [X|X]; [discriminate X|]).
  by apply elem_of_nil in X.
Defined.

Lemma started_game_is_fresh_witness :
  let out :=
    start_game 1 (GameRunner__init__ client (constructed (20 # 100) (2 # 100) (1 # 10)),
                  world_of (fun _ => 9 # 10) short_game) in
  let self' := fst (snd out) in
  (1 : Z) ∈ [1; 2; 3]
  /\ api self' = client
  /\ game_started self' = true /\ game_completed self' = false
  /\ game_state self' = Some (running 0 (Some young_only))
  /\ get_people_seen self' = []
  /\ admitted_people (current_stats self') = []
  /\ rejected_people (current_stats self') = []
  /\ steps_taken (current_stats self') = 0
  /\ exists info,
       initial_game_info self' = Some info
       /\ game_id (running (F:=Q) 0 (Some young_only)) = game_id info
       /\ forall attr,
            attribute_counts (current_stats self') !! attr
            = if bool_decide (attr ∈ map attribute (constraints info)) then Some 0
              else None.
Proof.
  intros out self'.
  apply (started_game_is_fresh 1
           (GameRunner__init__ client (constructed (20 # 100) (2 # 100) (1 # 10)))
           (world_of (fun _ => 9 # 10) short_game) (running 0 (Some young_only))).
  vm_compute. reflexivity.
Defined.

Lemma step_keeps_the_strategy_witness :
  let started :=
    snd (start_game 1 (GameRunner__init__ client (constructed (20 # 100) (2 # 100) (1 # 10)),
                       world_of (fun _ => 9 # 10) short_game)) in
  strategy (fst (snd (step 3 true (fst started, snd started)))) = strategy (fst started).
Proof.
  intros started.
  apply (step_keeps_the_strategy 3 true (fst started) (snd started)
           (session_start_game _ _ _ (session_new _ _))).
Defined.

(** The service answers twice and then no more: the first decision cannot
    be sent. *)
Lemma step_fails_only_with_the_service_witness :
  let started :=
    snd (start_game 1 (GameRunner__init__ client (constructed (20 # 100) (2 # 100) (1 # 10)),
                       world_of (fun _ => 9 # 10) (take 2 short_game))) in
  fst (step 3 true (fst started, snd started)) = Raise HTTPError
  /\ (HTTPError = HTTPError \/ HTTPError = KeyError "status").
Proof.
  intros started.
  assert (E : fst (step 3 true (fst started, snd started)) = Raise HTTPError)
    by (vm_compute; reflexivity).
  split; [exact E|].
  exact (step_fails_only_with_the_service 3 true (fst started) (snd started) HTTPError
           (session_start_game _ _ _ (session_new _ _)) E).
Defined.

Lemma step_pushes_each_record_witness :
  let started :=
    snd (start_game 1 (GameRunner__init__ client (constructed (20 # 100) (2 # 100) (1 # 10)),
                       world_of (fun _ => 9 # 10) short_game)) in
  let out := step 3 true (fst started, snd started) in
  let records := match fst out with Ok records => records | Raise _ => [] end in
  sent (snd (snd out))
  = rev (map (push_of (game_id (running (F:=Q) 0 (Some young_only)))) records)
    ++ sent (snd started).
Proof.
  intros started out records.
  apply (step_pushes_each_record 3 true (fst started) (snd started)
           (running 0 (Some young_only)) records).
  - vm_compute. reflexivity.
  - vm_compute. reflexivity.
Defined.

Lemma summary_agrees_with_tracker_witness :
  let started :=
    snd (start_game 1 (GameRunner__init__ client (constructed (20 # 100) (2 # 100) (1 # 10)),
                       world_of (fun _ => 9 # 10) short_game)) in
  let self := fst (snd (step 3 true (fst started, snd started))) in
  let summary :=
    default {| summary_strategy := "none"; summary_game_id := "none";
               summary_status := "none"; summary_steps_taken := 0;
               summary_admitted_count := 0; summary_rejected_count := 0;
               summary_total_seen := 0; summary_success := false;
               summary_constraints := []; summary_current_stats := fresh_stats;
               summary_people_history := [] |}
            (get_game_summary (fun _ => "Scenario1Strategy_Enhanced") self) in
  summary_admitted_count summary = len (admitted_people (current_stats self))
  /\ summary_rejected_count summary = len (rejected_people (current_stats self))
  /\ summary_admitted_count summary + summary_rejected_count summary
     = summary_total_seen summary
  /\ 0 <= summary_steps_taken summary <= summary_total_seen summary.
Proof.
  intros started self summary.
  apply (summary_agrees_with_tracker (fun _ => "Scenario1Strategy_Enhanced") self summary
           (session_step _ _ _ _ (session_start_game _ _ _ (session_new _ _)))).
  vm_compute. reflexivity.
Defined.

Lemma summary_reports_quotas_witness :
  let started :=
    snd (start_game 1 (GameRunner__init__ client (constructed (20 # 100) (2 # 100) (1 # 10)),
                       world_of (fun _ => 9 # 10) short_game)) in
  let self := fst (snd (step 3 true (fst started, snd started))) in
  exists summary info,
    get_game_summary (fun _ => "Scenario1Strategy_Enhanced") self = Some summary
    /\ initial_game_info self = Some info
    /\ map (fun report => (report_attribute report, required report))
           (summary_constraints summary)
       = map (fun c => (attribute c, min_count c)) (constraints info)
    /\ forall report,
         In report (summary_constraints summary) ->
         actual report
         = len (List.filter
                  (fun attributes => dict_get attributes (report_attribute report) false)
                  (admitted_people (current_stats self)))
         /\ (satisfied report = true <-> required report <= actual report).
Proof.
  intros started self.
  apply (summary_reports_quotas (fun _ => "Scenario1Strategy_Enhanced") self
           (session_step _ _ _ _ (session_start_game _ _ _ (session_new _ _)))).
  vm_compute. reflexivity.
Defined.

(** A strategy that still holds the quota of an earlier game. *)
Lemma start_game_reloads_the_strategy_witness :
  let out :=
    start_game 1 (GameRunner__init__ client blind_strategy,
                  world_of (fun _ => 9 # 10) short_game) in
  exists info,
    initial_game_info (fst (snd out)) = Some info
    /\ strategy (fst (snd out))
       = loaded (20 # 100) (2 # 100) (1 # 10) (constraints info)
                (relative_frequencies (attribute_statistics info))
                (correlations (attribute_statistics info))
    /\ sent (snd (snd out))
       = [GetDecideAndNext (game_id info) 0 None; GetNewGame 1 "player"] ++ [].
Proof.
  intros out.
  assert (E : fst out = Ok (running 0 (Some young_only))) by (vm_compute; reflexivity).
  exact (start_game_reloads_the_strategy 1 (GameRunner__init__ client blind_strategy)
           (world_of (fun _ => 9 # 10) short_game) (running 0 (Some young_only)) E).
Defined.

(* ===================================================================== *)
(** * The other strategies and the client *)
(* ===================================================================== *)

Section OtherStrategies.
Import ConstraintAware.



(** X28.  On the game states [decide_and_next] returns, which carry no
    constraints, [ConstraintAwareStrategy.decide] decides as
    [AlwaysAcceptStrategy.decide] does: it admits exactly while fewer than
    1000 people are admitted, whatever the person, the tracker and the
    safety margin. *)
Theorem constraint_aware_is_blind_to_later_states {F} (self : ConstraintAwareStrategy)
    (person : Person) (current_stats : Stats) (api_client : BerghainAPI)
    (gameId : string) (index : Z) (accept : option bool) (w w' : World F)
    (game_state : GameState F) :
  decide_and_next api_client gameId index accept w = (Ok game_state, w') ->
  ConstraintAware.decide self person game_state current_stats
  = AlwaysAccept.decide person game_state current_stats.
Proof.
  intros E. pose proof (decide_and_next_run api_client gameId index accept w) as R.
  cbv zeta in R. rewrite E in R. destruct R as (_ & _ & Rc & _). cbn [fst] in Rc.
  unfold ConstraintAware.decide, AlwaysAccept.decide. rewrite Rc. cbn [list_nonempty negb].
  destruct (Z.geb_spec (admitted_count game_state) 1000),
           (Z.ltb_spec (admitted_count game_state) 1000); try reflexivity; lia.
Qed.

End OtherStrategies.


Section Client.

Lemma rstrip_slash_spec (s : string) :
  (exists n, s = String.append (rstrip_slash s) (slashes n))
  /\ forall t, rstrip_slash s <> String.append t "/".
Proof.
  induction s as [|c rest [[n En] IH]]; cbn [rstrip_slash].
  - split; [by exists 0%nat|]. intros [|a t]; discriminate.
  - destruct (rstrip_slash rest) as [|k kept] eqn:Ek.
    + destruct (Ascii.eqb_spec c "/"%char) as [->|N].
      * split; [exists (Datatypes.S n); cbn in *; by rewrite En|].
        intros [|a t]; discriminate.
      * split; [exists n; cbn in *; by rewrite En|].
        intros [|a [|b t]]; cbn; intros X; inversion X. congruence.
    + split; [exists n; cbn in *; by rewrite En|].
      intros [|a t]; cbn; intros X; inversion X.
      eapply IH. eassumption.
Qed.

(** X29.  [BerghainAPI(base_url, player_id)] gives a client only with a
    player id that is not empty, the one given or else [PLAYER_ID] of the
    environment, and with the base URL without its trailing slashes;
    with no id in either place it raises [ValueError]. *)
Theorem client_has_a_player_id (getenv : string -> option string) (url : string)
    (given : option string) :
  match BerghainAPI__init__ getenv url given with
  | Ok client =>
    player_id client <> ""
    /\ (player_id client = default "" given
        \/ (default "" given = "" /\ getenv "PLAYER_ID" = Some (player_id client)))
    /\ (exists n, url = String.append (base_url client) (slashes n))
    /\ forall t, base_url client <> String.append t "/"
  | Raise e =>
    e = ValueError "Player ID must be provided or set in PLAYER_ID environment variable"
    /\ default "" given = ""
    /\ default "" (getenv "PLAYER_ID") = ""
  end.
Proof.
  unfold BerghainAPI__init__. cbv zeta.
  destruct (rstrip_slash_spec url) as [U1 U2].
  destruct given as [[|a g]|]; cbn [default].
  - destruct (getenv "PLAYER_ID") as [[|b p]|]; cbn; split_and!; try done. by right.
  - cbn. split_and!; try done. by left.
  - destruct (getenv "PLAYER_ID") as [[|b p]|]; cbn; split_and!; try done. by right.
Qed.

End Client.



Lemma constraint_aware_is_blind_to_later_states_witness :
  ConstraintAware.decide {| ConstraintAware.safety_margin := 1 # 10 |} well_dressed_only
                         (running (F:=Q) 900 (Some well_dressed_only)) fresh_stats
  = AlwaysAccept.decide well_dressed_only (running (F:=Q) 900 (Some well_dressed_only))
                        fresh_stats.
Proof.
  apply (constraint_aware_is_blind_to_later_states
           {| ConstraintAware.safety_margin := 1 # 10 |} well_dressed_only fresh_stats
           client "g" 7 (Some true)
           (world_of (fun _ => 9 # 10)
                     [NextData "running" (Some 900) (Some 0) (Some well_dressed_only)])
           (snd (decide_and_next client "g" 7 (Some true)
                   (world_of (fun _ => 9 # 10)
                             [NextData "running" (Some 900) (Some 0)
                                       (Some well_dressed_only)])))).
  vm_compute. reflexivity.
Defined.
